(** * VCF-View: the record parser and the table filter of [vcf_view.py]

    A shallow embedding of the parsing, filtering and table-display code of
    the viewer, with the Python built-ins it relies on, followed by the
    properties of that code.

    Text is modelled by [string]: a character is a code point below 256;
    the module [Unicode] has [lower()] and the filter on any text.
    Python integers are [Z]; Python floats are IEEE binary64 values,
    [spec_float] with precision 53 and maximal exponent 1024. *)

From Stdlib Require Import ZArith NArith List String Ascii Bool Lia.
From Stdlib Require Import Floats.SpecFloat.
Import ListNotations.

Local Open Scope string_scope.
Local Open Scope Z_scope.

(** ** Python built-ins on [str] and [int] *)

Module Py.

Definition code (c : ascii) : Z := Z.of_N (N_of_ascii c).

Definition between (lo hi : Z) (c : ascii) : bool :=
  (lo <=? code c) && (code c <=? hi).

(** [str.isspace] on one character. *)
Definition isspace (c : ascii) : bool :=
  between 9 13 c || between 28 32 c || (code c =? 133) || (code c =? 160).

(** The white space [int()] and [float()] accept around a literal. *)
Definition numeric_space (c : ascii) : bool :=
  between 9 13 c || (code c =? 32) || (code c =? 133) || (code c =? 160).

Definition isupper (c : ascii) : bool :=
  between 65 90 c || (between 192 222 c && negb (code c =? 215)).

Definition lower_char (c : ascii) : ascii :=
  if isupper c then ascii_of_N (N_of_ascii c + 32) else c.

(** [s.lower()] *)
Fixpoint lower (s : string) : string :=
  match s with
  | EmptyString => EmptyString
  | String c r => String (lower_char c) (lower r)
  end.

Fixpoint lstrip_by (p : ascii -> bool) (s : string) : string :=
  match s with
  | EmptyString => EmptyString
  | String c r => if p c then lstrip_by p r else s
  end.

Fixpoint rstrip_by (p : ascii -> bool) (s : string) : string :=
  match s with
  | EmptyString => EmptyString
  | String c r =>
      match rstrip_by p r with
      | EmptyString => if p c then EmptyString else String c EmptyString
      | r' => String c r'
      end
  end.

(** [s.strip()] *)
Definition strip (s : string) : string := rstrip_by isspace (lstrip_by isspace s).

(** [s.split(sep)] for a one-character separator. *)
Fixpoint split (sep : ascii) (s : string) : list string :=
  match s with
  | EmptyString => [EmptyString]
  | String c r =>
      if Ascii.eqb c sep then EmptyString :: split sep r
      else match split sep r with
           | h :: t => String c h :: t
           | [] => [String c EmptyString]
           end
  end.

(** [s.startswith(p)] *)
Definition startswith (s p : string) : bool := String.prefix p s.

(** [s.endswith(suffix)] *)
Fixpoint endswith (s suffix : string) : bool :=
  String.eqb s suffix ||
  match s with
  | EmptyString => false
  | String _ r => endswith r suffix
  end.

(** [needle in hay] on strings: [needle] occurs in [hay] as a substring. *)
Fixpoint contains (needle hay : string) : bool :=
  String.prefix needle hay ||
  match hay with
  | EmptyString => false
  | String _ r => contains needle r
  end.

(** [sep.join(l)] *)
Definition join (sep : string) (l : list string) : string := String.concat sep l.

(** Truth value of a string: [if s:]. *)
Definition truthy (s : string) : bool :=
  match s with EmptyString => false | _ => true end.

(** *** Decimal digits *)

Definition isdigit (c : ascii) : bool := between 48 57 c.

Definition digit_char (d : Z) : ascii := ascii_of_N (Z.to_N (48 + d)).

(** The decimal digits of a non-negative integer, by repeated division;
    [fuel] bounds the number of digits. *)
Fixpoint digits_of (fuel : nat) (n : Z) (acc : string) : string :=
  match fuel with
  | O => acc
  | S f =>
      let acc' := String (digit_char (n mod 10)) acc in
      if n / 10 =? 0 then acc' else digits_of f (n / 10) acc'
  end.

Definition str_nat (n : Z) : string := digits_of (S (Z.to_nat (Z.log2 n))) n EmptyString.

(** [str(n)] for an [int]. *)
Definition str_int (n : Z) : string :=
  if n <? 0 then String "-"%char (str_nat (- n)) else str_nat n.

(** [digit (["_"] digit)*] after a first digit has been read. *)
Fixpoint digits_tail (s : string) : list Z * string :=
  match s with
  | EmptyString => ([], EmptyString)
  | String c r =>
      if isdigit c then
        let (ds, rest) := digits_tail r in (code c - 48 :: ds, rest)
      else if Ascii.eqb c "_" then
        match r with
        | String d r' =>
            if isdigit d then
              let (ds, rest) := digits_tail r' in (code d - 48 :: ds, rest)
            else ([], s)
        | EmptyString => ([], s)
        end
      else ([], s)
  end.

(** [digitpart ::= digit (["_"] digit)*]: the digits read and what follows. *)
Definition digitpart (s : string) : option (list Z * string) :=
  match s with
  | EmptyString => None
  | String c r =>
      if isdigit c then
        let (ds, rest) := digits_tail r in Some (code c - 48 :: ds, rest)
      else None
  end.

Definition value_of (ds : list Z) : Z := fold_left (fun a d => 10 * a + d) ds 0.

Definition sign_of (s : string) : bool * string :=
  match s with
  | String c r =>
      if Ascii.eqb c "-" then (true, r)
      else if Ascii.eqb c "+" then (false, r)
      else (false, s)
  | EmptyString => (false, s)
  end.

Definition strip_numeric (s : string) : string :=
  rstrip_by numeric_space (lstrip_by numeric_space s).

(** The most digits [int()] converts: [sys.int_info.default_max_str_digits]. *)
Definition MAX_STR_DIGITS : Z := 4300.

(** [int(s)]: [None] stands for the [ValueError] of an invalid literal or of
    a literal of more than [MAX_STR_DIGITS] digits. *)
Definition int (s : string) : option Z :=
  let (neg, body) := sign_of (strip_numeric s) in
  match digitpart body with
  | Some (ds, EmptyString) =>
      if MAX_STR_DIGITS <? Z.of_nat (List.length ds) then None
      else Some (if neg then - value_of ds else value_of ds)
  | _ => None
  end.

End Py.

(** ** Python floats *)

Module PyFloat.

Definition prec : Z := 53.
Definition emax : Z := 1024.

Definition zero : spec_float := S754_zero false.

(** The binary64 value nearest to [m * 10^e] (ties to even), as the
    correctly rounded conversion of [float()] and [round()] gives it. *)
Definition of_decimal (neg : bool) (m e : Z) : spec_float :=
  match m with
  | Zpos p =>
      if 0 <=? e then binary_normalize prec emax (cond_Zopp neg (Zpos p * 10 ^ e)) 0 false
      else SFdiv prec emax (S754_finite neg p 0)
                           (S754_finite false (Z.to_pos (10 ^ (- e))) 0)
  | _ => S754_zero neg
  end.

(** [number ::= [digitpart] "." digitpart | digitpart ["."]]: the digits
    with the point removed, the decimal exponent that puts it back, and what
    follows. *)
Definition number (s : string) : option (list Z * Z * string) :=
  match Py.digitpart s with
  | Some (ip, rest) =>
      match rest with
      | String c r =>
          if Ascii.eqb c "." then
            match Py.digitpart r with
            | Some (fp, rest') => Some ((ip ++ fp)%list, - Z.of_nat (List.length fp), rest')
            | None => Some (ip, 0, r)
            end
          else Some (ip, 0, rest)
      | EmptyString => Some (ip, 0, rest)
      end
  | None =>
      match s with
      | String c r =>
          if Ascii.eqb c "." then
            match Py.digitpart r with
            | Some (fp, rest') => Some (fp, - Z.of_nat (List.length fp), rest')
            | None => None
            end
          else None
      | EmptyString => None
      end
  end.

(** [exponent ::= ("e" | "E") [sign] digitpart], optional; it must end the
    literal. *)
Definition exponent (s : string) : option Z :=
  match s with
  | EmptyString => Some 0
  | String c r =>
      if Ascii.eqb c "e" || Ascii.eqb c "E" then
        let (neg, body) := Py.sign_of r in
        match Py.digitpart body with
        | Some (ds, EmptyString) =>
            Some (if neg then - Py.value_of ds else Py.value_of ds)
        | _ => None
        end
      else None
  end.

(** [float(s)]: [None] stands for the [ValueError] of an invalid literal. *)
Definition float (s : string) : option spec_float :=
  let (neg, body) := Py.sign_of (Py.strip_numeric s) in
  let word := Py.lower body in
  if String.eqb word "inf" || String.eqb word "infinity" then Some (S754_infinity neg)
  else if String.eqb word "nan" then Some S754_nan
  else
    match number body with
    | Some (ds, e, rest) =>
        match exponent rest with
        | Some x => Some (of_decimal neg (Py.value_of ds) (e + x))
        | None => None
        end
    | None => None
    end.

(** Truth value of a float: [if x:] is false for [0.0] and [-0.0] only. *)
Definition truthy (x : spec_float) : bool :=
  match x with S754_zero _ => false | _ => true end.

(** [m * 2^e / 10^k] as a fraction of two positive integers. *)
Definition ratio (m : positive) (e k : Z) : Z * Z :=
  (Zpos m * 2 ^ Z.max e 0 * 10 ^ Z.max (- k) 0, 2 ^ Z.max (- e) 0 * 10 ^ Z.max k 0).

Definition div_half_even (n d : Z) : Z :=
  let q := n / d in
  match 2 * (n mod d) ?= d with
  | Lt => q
  | Gt => q + 1
  | Eq => if Z.even q then q else q + 1
  end.

(** [round(x, 2)] *)
Definition round2 (x : spec_float) : spec_float :=
  match x with
  | S754_finite s m e =>
      let (n, d) := ratio m e (-2) in of_decimal s (div_half_even n d) (-2)
  | _ => x
  end.

(** The decimal exponent [p] of [m * 2^e]: [10^p <= m * 2^e < 10^(p+1)]. *)
Fixpoint adjust (fuel : nat) (m : positive) (e p : Z) : Z :=
  match fuel with
  | O => p
  | S f =>
      let (n, d) := ratio m e p in
      if n <? d then adjust f m e (p - 1)
      else if 10 * d <=? n then adjust f m e (p + 1)
      else p
  end.

Definition decimal_exponent (m : positive) (e : Z) : Z :=
  adjust 4 m e ((Zpos (digits2_pos m) + e - 1) * 30103 / 100000).

Definition same (x y : spec_float) : bool :=
  match x, y with
  | S754_finite s m e, S754_finite s' m' e' =>
      Bool.eqb s s' && Pos.eqb m m' && Z.eqb e e'
  | S754_zero s, S754_zero s' => Bool.eqb s s'
  | S754_infinity s, S754_infinity s' => Bool.eqb s s'
  | S754_nan, S754_nan => true
  | _, _ => false
  end.

(** The shortest decimal [c * 10^k] that [float()] reads back as
    [m * 2^e], the nearest one among those of that length: digits are tried
    from [n] upwards. *)
Fixpoint shortest (fuel : nat) (m : positive) (e p n : Z) : Z * Z :=
  let k := p - n + 1 in
  let (a, b) := ratio m e k in
  let lo := a / b in
  let hi := lo + 1 in
  let back c := same (of_decimal false c k) (S754_finite false m e) in
  match fuel with
  | O => (div_half_even a b, k)
  | S f =>
      match back lo, back hi with
      | true, true => (div_half_even a b, k)
      | true, false => (lo, k)
      | false, true => (hi, k)
      | false, false => shortest f m e p (n + 1)
      end
  end.

Fixpoint drop_zeros (fuel : nat) (c k : Z) : Z * Z :=
  match fuel with
  | O => (c, k)
  | S f => if (c mod 10 =? 0) && negb (c =? 0) then drop_zeros f (c / 10) (k + 1) else (c, k)
  end.

Fixpoint zeros (n : nat) : string :=
  match n with O => EmptyString | S n' => String "0" (zeros n') end.

Definition two_digits (n : Z) : string :=
  if n <? 10 then String "0" (Py.str_nat n) else Py.str_nat n.

(** The text of a positive finite float from its shortest digits [ds] and
    the position [decpt] of the decimal point: positional notation when
    [-4 < decpt <= 16], exponent notation otherwise. *)
Definition layout (ds : string) (decpt : Z) : string :=
  let len := Z.of_nat (String.length ds) in
  if (decpt <=? -4) || (16 <? decpt) then
    let mant :=
      match ds with
      | String d EmptyString => ds
      | String d r => String d (String "." r)
      | EmptyString => ds
      end in
    let x := decpt - 1 in
    mant ++ "e" ++ (if x <? 0 then "-" else "+") ++ two_digits (Z.abs x)
  else if decpt <=? 0 then "0." ++ zeros (Z.to_nat (- decpt)) ++ ds
  else if len <=? decpt then ds ++ zeros (Z.to_nat (decpt - len)) ++ ".0"
  else substring 0 (Z.to_nat decpt) ds ++ "."
       ++ substring (Z.to_nat decpt) (String.length ds - Z.to_nat decpt) ds.

(** [str(x)] and [repr(x)] for a float. *)
Definition str (x : spec_float) : string :=
  match x with
  | S754_zero s => if s then "-0.0" else "0.0"
  | S754_infinity s => if s then "-inf" else "inf"
  | S754_nan => "nan"
  | S754_finite s m e =>
      let (c0, k0) := shortest 16 m e (decimal_exponent m e) 1 in
      let (c, k) := drop_zeros 17 c0 k0 in
      let ds := Py.str_nat c in
      (if s then "-" else "") ++ layout ds (Z.of_nat (String.length ds) + k)
  end.

End PyFloat.

(** ** The data model *)

(** One entry of [all_variants]: the dict built by either parser. [id] and
    [qual] hold [None] or a value. *)
Module V.
Record t := {
  chrom : string;
  pos : Z;
  id : option string;
  ref : string;
  alt : string;
  qual : option spec_float;
  filter : string;
  info : string;
  raw_info : string
}.
End V.

(** The values the INFO mapping of a [pysam] record holds. *)
Inductive scalar :=
  | SNone
  | SBool (b : bool)
  | SInt (n : Z)
  | SFloat (x : spec_float)
  | SStr (s : string).

Inductive info_value :=
  | Scalar (x : scalar)
  | Tuple (xs : list scalar).

(** What [parse_with_pysam] reads from one [pysam] record [rec]:
    [rec.chrom], [rec.pos], [rec.id], [rec.ref], [rec.alts], [rec.qual],
    [rec.filter.keys()], [rec.info.items()] and [str(rec)]. *)
Module Rec.
Record t := {
  chrom : string;
  pos : Z;
  id : option string;
  ref : string;
  alts : option (list string);
  qual : option spec_float;
  filter_keys : list string;
  info_items : list (string * info_value);
  text : string
}.
End Rec.

(** [str(x)] for the values of an INFO mapping. *)
Definition str_scalar (x : scalar) : string :=
  match x with
  | SNone => "None"
  | SBool b => if b then "True" else "False"
  | SInt n => Py.str_int n
  | SFloat f => PyFloat.str f
  | SStr s => s
  end.

(** [str(x)] for an [id]: [None] or a string. *)
Definition str_id (x : option string) : string :=
  match x with
  | None => "None"
  | Some s => s
  end.

Inductive exn :=
  | ValueError (literal : string)
  | EnvironmentError (msg : string).

(** ** [VcfTableModel.data], display role *)

Definition HEADERS : list string :=
  ["CHROM"; "POS"; "ID"; "REF"; "ALT"; "QUAL"; "FILTER"; "INFO"].

(** The text of column [col] of [row_data]; [None] outside the eight
    columns, where the method returns nothing. *)
Definition data (row_data : V.t) (col : Z) : option string :=
  if col =? 0 then Some (V.chrom row_data)
  else if col =? 1 then Some (Py.str_int (V.pos row_data))
  else if col =? 2 then
    Some (match V.id row_data with
          | Some s => if Py.truthy s then s else "."
          | None => "."
          end)
  else if col =? 3 then Some (V.ref row_data)
  else if col =? 4 then Some (V.alt row_data)
  else if col =? 5 then
    Some (match V.qual row_data with
          | Some q => if PyFloat.truthy q then PyFloat.str (PyFloat.round2 q) else "."
          | None => "."
          end)
  else if col =? 6 then Some (V.filter row_data)
  else if col =? 7 then Some (V.info row_data)
  else None.

(** ** [MainWindow] *)

(** The fields of the window the loading and filtering code reads and
    writes; [model_data] is [self.model._data]. *)
Inductive detail :=
  | Text (s : string)
  | ErrorText (e : exn).

Record MainWindow := {
  all_variants : list V.t;
  filtered_variants : list V.t;
  model_data : list V.t;
  search_input : string;
  chk_pass : bool;
  lbl_count : string;
  lbl_status : string;
  detail_view : detail
}.

Definition set_status (self : MainWindow) (s : string) : MainWindow :=
  {| all_variants := all_variants self;
     filtered_variants := filtered_variants self;
     model_data := model_data self;
     search_input := search_input self;
     chk_pass := chk_pass self;
     lbl_count := lbl_count self;
     lbl_status := s;
     detail_view := detail_view self |}.

Definition set_all_variants (self : MainWindow) (vs : list V.t) : MainWindow :=
  {| all_variants := vs;
     filtered_variants := filtered_variants self;
     model_data := model_data self;
     search_input := search_input self;
     chk_pass := chk_pass self;
     lbl_count := lbl_count self;
     lbl_status := lbl_status self;
     detail_view := detail_view self |}.

Definition set_detail (self : MainWindow) (d : detail) : MainWindow :=
  {| all_variants := all_variants self;
     filtered_variants := filtered_variants self;
     model_data := model_data self;
     search_input := search_input self;
     chk_pass := chk_pass self;
     lbl_count := lbl_count self;
     lbl_status := lbl_status self;
     detail_view := d |}.

(** *** [parse_with_pysam] *)

(** One INFO item, as the loop over [rec.info.items()] appends it. *)
Definition info_part (kv : string * info_value) : string :=
  let (k, v) := kv in
  match v with
  | Scalar (SBool true) => k
  | Tuple xs => k ++ "=" ++ Py.join "," (map str_scalar xs)
  | Scalar x => k ++ "=" ++ str_scalar x
  end.

(** The dict appended for one record [rec]. *)
Definition variant_of_rec (rec : Rec.t) : V.t :=
  let flt := Rec.filter_keys rec in
  let flt_str :=
    match flt with
    | [] => "PASS"
    | _ => if existsb (String.eqb "PASS") flt then "PASS" else Py.join ";" flt
    end in
  let alt_str :=
    match Rec.alts rec with
    | Some (a :: l) => Py.join "," (a :: l)
    | _ => "."
    end in
  let info_str := Py.join ";" (map info_part (Rec.info_items rec)) in
  {| V.chrom := Rec.chrom rec;
     V.pos := Rec.pos rec;
     V.id := Rec.id rec;
     V.ref := Rec.ref rec;
     V.alt := alt_str;
     V.qual := Rec.qual rec;
     V.filter := flt_str;
     V.info := info_str;
     V.raw_info := Rec.text rec |}.

(** The loop [for rec in vcf], appending to [self.all_variants]. *)
Fixpoint pysam_loop (recs : list Rec.t) (all : list V.t) : list V.t :=
  match recs with
  | [] => all
  | rec :: rest => pysam_loop rest (all ++ [variant_of_rec rec])
  end.

(** *** [parse_native] *)

Definition TAB : ascii := ascii_of_nat 9.

(** What one turn of the loop [for line in f] does. *)
Inductive step :=
  | Continue
  | Append (v : V.t)
  | Raise (e : exn).

Definition col (cols : list string) (i : nat) : string := nth i cols EmptyString.

Definition parse_native_line (line : string) : step :=
  if Py.startswith line "#" then Continue
  else
    let cols := Py.split TAB (Py.strip line) in
    if Z.of_nat (List.length cols) <? 8 then Continue
    else
      let qual :=
        if negb (String.eqb (col cols 5) ".") then
          match PyFloat.float (col cols 5) with
          | Some q => q
          | None => PyFloat.zero
          end
        else PyFloat.zero in
      match Py.int (col cols 1) with
      | None => Raise (ValueError (col cols 1))
      | Some p =>
          Append {| V.chrom := col cols 0;
                    V.pos := p;
                    V.id := Some (col cols 2);
                    V.ref := col cols 3;
                    V.alt := col cols 4;
                    V.qual := Some qual;
                    V.filter := col cols 6;
                    V.info := col cols 7;
                    V.raw_info := line |}
      end.

(** The loop [for line in f]: the list appended to, and the exception that
    ended the loop, if any. *)
Fixpoint native_loop (lines : list string) (all : list V.t) : list V.t * option exn :=
  match lines with
  | [] => (all, None)
  | line :: rest =>
      match parse_native_line line with
      | Continue => native_loop rest all
      | Append v => native_loop rest (all ++ [v])
      | Raise e => (all, Some e)
      end
  end.

(** *** The files *)

(** What opening and reading a path gives: the open fails, or the stream
    yields [items] and then ends, normally or with an exception. *)
Inductive source (A : Type) :=
  | Unopenable (e : exn)
  | Stream (items : list A) (failure : option exn).
Arguments Unopenable {A} e.
Arguments Stream {A} items failure.

(** The surroundings of one call of [load_vcf]: the path chosen in the file
    dialog, whether [pysam] was imported, and the three ways to read a
    path. *)
Record world := {
  chosen_path : string;
  HAS_PYSAM : bool;
  open_text : string -> source string;
  gzip_open : string -> source string;
  VariantFile : string -> source Rec.t
}.

Definition parse_with_pysam (w : world) (path : string) (self : MainWindow)
  : MainWindow * option exn :=
  match VariantFile w path with
  | Unopenable e => (self, Some e)
  | Stream recs failure =>
      (set_all_variants self (pysam_loop recs (all_variants self)), failure)
  end.

Definition parse_native (w : world) (path : string) (self : MainWindow)
  : MainWindow * option exn :=
  let opener := if Py.endswith path ".gz" then gzip_open w else open_text w in
  match opener path with
  | Unopenable e => (self, Some e)
  | Stream lines failure =>
      let (all, raised) := native_loop lines (all_variants self) in
      (set_all_variants self all,
       match raised with
       | Some e => Some e
       | None => failure
       end)
  end.

(** *** [apply_filters] *)

(** The loop over [self.all_variants], appending to the new
    [self.filtered_variants]. *)
Fixpoint filter_loop (search_text : string) (show_pass : bool)
    (vs : list V.t) (filtered : list V.t) : list V.t :=
  match vs with
  | [] => filtered
  | v :: rest =>
      if show_pass && negb (String.eqb (V.filter v) "PASS") then
        filter_loop search_text show_pass rest filtered
      else if Py.truthy search_text
              && (negb (Py.contains search_text (Py.lower (V.chrom v)))
                  && negb (Py.contains search_text (Py.str_int (V.pos v)))
                  && negb (Py.contains search_text (Py.lower (str_id (V.id v))))
                  && negb (Py.contains search_text (Py.lower (V.info v)))) then
        filter_loop search_text show_pass rest filtered
      else filter_loop search_text show_pass rest (filtered ++ [v])
  end.

(** The filtered list for a text typed in the search field and the state of
    the check box. *)
Definition visible (query : string) (show_pass : bool) (all : list V.t) : list V.t :=
  filter_loop (Py.lower query) show_pass all [].

Definition apply_filters (self : MainWindow) : MainWindow :=
  let filtered := visible (search_input self) (chk_pass self) (all_variants self) in
  {| all_variants := all_variants self;
     filtered_variants := filtered;
     model_data := filtered;
     search_input := search_input self;
     chk_pass := chk_pass self;
     lbl_count := "Variants: " ++ Py.str_int (Z.of_nat (List.length filtered));
     lbl_status := lbl_status self;
     detail_view := detail_view self |}.

(** *** [load_vcf] *)

(** [os.path.basename]: what follows the last ["/"]. *)
Fixpoint basename (path : string) : string :=
  match path with
  | EmptyString => EmptyString
  | String _ r =>
      if Py.contains "/" path then basename r else path
  end.

Definition load_vcf (w : world) (self : MainWindow) : MainWindow :=
  let file_path := chosen_path w in
  if negb (Py.truthy file_path) then self
  else
    let self := set_status self "Parsing..." in
    let self := set_all_variants self [] in
    let (self, raised) :=
      if HAS_PYSAM w then parse_with_pysam w file_path self
      else parse_native w file_path self in
    match raised with
    | None =>
        let self := apply_filters self in
        set_status self ("Loaded: " ++ basename file_path)
    | Some e =>
        let self := set_status self "Error loading file" in
        set_detail self (ErrorText e)
    end.

(** ** Vocabulary of the properties *)

(** The test of the search text on one entry, as the loop of
    [apply_filters] writes it: the four membership tests. *)
Definition searched (search_text : string) (v : V.t) : bool :=
  Py.contains search_text (Py.lower (V.chrom v))
  || Py.contains search_text (Py.str_int (V.pos v))
  || Py.contains search_text (Py.lower (str_id (V.id v)))
  || Py.contains search_text (Py.lower (V.info v)).

(** An entry the loop appends: neither [continue] is taken. *)
Definition kept (search_text : string) (show_pass : bool) (v : V.t) : bool :=
  negb (show_pass && negb (String.eqb (V.filter v) "PASS"))
  && negb (Py.truthy search_text && negb (searched search_text v)).

(** A string without upper-case letters is its own [lower()]. *)
Definition caseless (s : string) : Prop := Py.lower s = s.

(** The predicate of the specification. [field] contains [query] without
    regard to case when the lowered query occurs in the lowered field. *)
Definition contains_nocase (field query : string) : bool :=
  Py.contains (Py.lower query) (Py.lower field).

Definition includes (query : string) (passOnly : bool) (record : V.t) : bool :=
  (if passOnly then String.eqb (V.filter record) "PASS" else true)
  && (if String.eqb query "" then true
      else contains_nocase (V.chrom record) query
           || contains_nocase (Py.str_int (V.pos record)) query
           || contains_nocase (str_id (V.id record)) query
           || contains_nocase (V.info record) query).

(** [Subsequence l1 l2]: [l1] is [l2] with some elements left out, the
    others in their order. *)
Inductive Subsequence {A : Type} : list A -> list A -> Prop :=
  | Subsequence_nil : Subsequence [] []
  | Subsequence_keep x l1 l2 : Subsequence l1 l2 -> Subsequence (x :: l1) (x :: l2)
  | Subsequence_drop x l1 l2 : Subsequence l1 l2 -> Subsequence l1 (x :: l2).

(** The fields of a line, split on tabs. *)
Definition fields (line : string) : list string := Py.split TAB line.

(** The columns the native parser works on: the stripped line, split. *)
Definition columns (line : string) : list string := Py.split TAB (Py.strip line).

(** A data line: not a header line, and at least eight columns. *)
Definition is_data_line (line : string) : bool :=
  negb (Py.startswith line "#") && (8 <=? Z.of_nat (List.length (columns line))).

(** The entries one line adds to [all_variants]. *)
Definition emitted (line : string) : list V.t :=
  match parse_native_line line with
  | Append v => [v]
  | _ => []
  end.

(** The entry a data line gives when its POS field is the integer [p]. *)
Definition entry (line : string) (p : Z) : V.t :=
  let cols := columns line in
  {| V.chrom := col cols 0;
     V.pos := p;
     V.id := Some (col cols 2);
     V.ref := col cols 3;
     V.alt := col cols 4;
     V.qual :=
       Some (if negb (String.eqb (col cols 5) ".") then
               match PyFloat.float (col cols 5) with
               | Some q => q
               | None => PyFloat.zero
               end
             else PyFloat.zero);
     V.filter := col cols 6;
     V.info := col cols 7;
     V.raw_info := line |}.

(** The lines read before the loop ends: all of them, or those before the
    first line that raises. *)
Fixpoint consumed (lines : list string) : nat :=
  match lines with
  | [] => O
  | line :: rest =>
      match parse_native_line line with
      | Raise _ => O
      | _ => S (consumed rest)
      end
  end.

(** The number of times [sep] occurs in [s]. *)
Fixpoint occurrences (sep : ascii) (s : string) : nat :=
  match s with
  | EmptyString => O
  | String c r => if Ascii.eqb c sep then S (occurrences sep r) else occurrences sep r
  end.

(** A stored [qual] that is the float zero. *)
Definition is_zero (q : option spec_float) : bool :=
  match q with
  | Some (S754_zero _) => true
  | _ => false
  end.

(** *** Sample input *)

Definition NL : string := String (ascii_of_nat 10) EmptyString.

(** A line of a file: the fields joined by tabs, and the line end. *)
Definition line_of (cols : list string) : string :=
  Py.join (String TAB EmptyString) cols ++ NL.

Definition sentinel_line : string :=
  line_of ["chr1"; "100"; "."; "A"; "G"; "."; "PASS"; "DP=10"].

Definition zero_qual_line : string :=
  line_of ["chr1"; "100"; "."; "A"; "G"; "0"; "PASS"; "DP=10"].

Definition valid_line : string :=
  line_of ["chr2"; "2500"; "rs77"; "C"; "T"; "29.456"; "q10"; "DP=7;AF=0.5"].

Definition bad_pos_line : string :=
  line_of ["chr1"; "x"; "rs1"; "A"; "G"; "50"; "PASS"; "DP=3"].

Definition bad_qual_line : string :=
  line_of ["chr1"; "300"; "rs2"; "A"; "G"; "high"; "PASS"; "DP=3"].

Definition short_line : string := line_of ["chr1"; "5"; "rs1"].

(** The record [pysam] yields for [sentinel_line]: the missing ID and the
    missing QUAL are [None], the filter keys are [["PASS"]], the only ALT
    allele is [G], and INFO holds the integer [DP]. *)
Definition sentinel_rec : Rec.t :=
  {| Rec.chrom := "chr1";
     Rec.pos := 100;
     Rec.id := None;
     Rec.ref := "A";
     Rec.alts := Some ["G"];
     Rec.qual := None;
     Rec.filter_keys := ["PASS"];
     Rec.info_items := [("DP", Scalar (SInt 10))];
     Rec.text := sentinel_line |}.

Definition sample_variant : V.t :=
  {| V.chrom := "chr1";
     V.pos := 100;
     V.id := Some "rs1";
     V.ref := "A";
     V.alt := "G";
     V.qual := Some PyFloat.zero;
     V.filter := "PASS";
     V.info := "DP=10";
     V.raw_info := sentinel_line |}.

Definition empty_window : MainWindow :=
  {| all_variants := [];
     filtered_variants := [];
     model_data := [];
     search_input := "";
     chk_pass := false;
     lbl_count := "Variants: 0";
     lbl_status := "Ready";
     detail_view := Text "" |}.

(** A window that shows one loaded entry. *)
Definition loaded_window : MainWindow :=
  {| all_variants := [sample_variant];
     filtered_variants := [sample_variant];
     model_data := [sample_variant];
     search_input := "";
     chk_pass := false;
     lbl_count := "Variants: 1";
     lbl_status := "Loaded: a.vcf";
     detail_view := Text "" |}.

(** A world without [pysam] in which no path can be opened. *)
Definition missing_file_world : world :=
  {| chosen_path := "missing.vcf";
     HAS_PYSAM := false;
     open_text := fun _ => Unopenable (EnvironmentError "No such file or directory");
     gzip_open := fun _ => Unopenable (EnvironmentError "No such file or directory");
     VariantFile := fun _ => Unopenable (EnvironmentError "No such file or directory") |}.

(** A world without [pysam] in which every plain-text path holds [lines]. *)
Definition text_file_world (path : string) (lines : list string) : world :=
  {| chosen_path := path;
     HAS_PYSAM := false;
     open_text := fun _ => Stream lines None;
     gzip_open := fun _ => Unopenable (EnvironmentError "Not a gzipped file");
     VariantFile := fun _ => Unopenable (EnvironmentError "No module named pysam") |}.

(** The opening of the chosen path fails with [e], on the parse path
    [load_vcf] takes. *)
Definition open_fails (w : world) (e : exn) : Prop :=
  if HAS_PYSAM w then VariantFile w (chosen_path w) = Unopenable e
  else (if Py.endswith (chosen_path w) ".gz" then gzip_open w else open_text w)
         (chosen_path w) = Unopenable e.

(** ** The rest of the table model and of the window *)

(** [l[i]] on a list: a negative index counts from the end; [None] stands
    for the [IndexError] of an index out of range. *)
Definition getitem {A : Type} (l : list A) (i : Z) : option A :=
  let len := Z.of_nat (List.length l) in
  if (0 <=? i) && (i <? len) then nth_error l (Z.to_nat i)
  else if (- len <=? i) && (i <? 0) then nth_error l (Z.to_nat (len + i))
  else None.

(** [s.replace(old, new)] for one-character [old] and [new]. *)
Fixpoint replace_char (old new : ascii) (s : string) : string :=
  match s with
  | EmptyString => EmptyString
  | String c r =>
      String (if Ascii.eqb c old then new else c) (replace_char old new r)
  end.

(** [c * n] for a one-character string [c]. *)
Fixpoint repeat_char (c : ascii) (n : nat) : string :=
  match n with
  | O => EmptyString
  | S n' => String c (repeat_char c n')
  end.

(** *** [VcfTableModel] *)

Inductive role :=
  | DisplayRole
  | BackgroundRole
  | TextAlignmentRole
  | OtherRole.

(** What [data] returns: nothing, a text, a colour, or an alignment, to the
    right or to the left, vertically centred either way. *)
Inductive value :=
  | NoValue
  | TextValue (s : string)
  | ColorValue (name : string)
  | AlignRight
  | AlignLeft.

(** [VcfTableModel.data(index, role)] on the rows [_data], for the row and
    column of [index]; [None] stands for the [IndexError] of a row outside
    [_data]. *)
Definition data_role (_data : list V.t) (row col : Z) (r : role) : option value :=
  match r with
  | DisplayRole =>
      match getitem _data row with
      | None => None
      | Some row_data =>
          Some (match data row_data col with
                | Some s => TextValue s
                | None => NoValue
                end)
      end
  | BackgroundRole =>
      Some (if row mod 2 =? 1 then ColorValue "#2d2d30" else NoValue)
  | TextAlignmentRole =>
      Some (if (col =? 1) || (col =? 5) then AlignRight else AlignLeft)
  | OtherRole => Some NoValue
  end.

Definition rowCount (self : MainWindow) : Z := Z.of_nat (List.length (model_data self)).

Definition columnCount : Z := Z.of_nat (List.length HEADERS).

(** [headerData(section, Horizontal, DisplayRole)] *)
Definition headerData (section : Z) : option string := getitem HEADERS section.

Definition get_variant (self : MainWindow) (row_idx : Z) : option V.t :=
  getitem (model_data self) row_idx.

(** *** [on_selection_changed] *)

(** [str(x)] for a [qual]: [None] or a float. *)
Definition str_qual (x : option spec_float) : string :=
  match x with
  | None => "None"
  | Some q => PyFloat.str q
  end.

(** The head of the detail text, up to and with the line ["Raw Line:"]. *)
Definition detail_head (variant : V.t) : string :=
  "=== Variant Details ===" ++ NL
  ++ "Location: " ++ V.chrom variant ++ ":" ++ Py.str_int (V.pos variant) ++ NL
  ++ "Ref/Alt:  " ++ V.ref variant ++ " -> " ++ V.alt variant ++ NL
  ++ "Quality:  " ++ str_qual (V.qual variant) ++ NL
  ++ "Filter:   " ++ V.filter variant ++ NL
  ++ "Info:     " ++ V.info variant ++ NL
  ++ repeat_char "-" 30 ++ NL
  ++ "Raw Line:" ++ NL.

(** The text [info_text] built for one entry. *)
Definition detail_text (variant : V.t) : string :=
  detail_head variant ++ replace_char TAB " " (V.raw_info variant).

(** [on_selection_changed] when the selection model reports the rows
    [indexes]; [None] stands for an [IndexError]. *)
Definition on_selection_changed (indexes : list Z) (self : MainWindow)
  : option MainWindow :=
  match indexes with
  | [] => Some self
  | row :: _ =>
      match get_variant self row with
      | Some variant => Some (set_detail self (Text (detail_text variant)))
      | None => None
      end
  end.

(** *** The signals connected in [MainWindow.__init__] *)

Definition set_search_input (self : MainWindow) (text : string) : MainWindow :=
  {| all_variants := all_variants self;
     filtered_variants := filtered_variants self;
     model_data := model_data self;
     search_input := text;
     chk_pass := chk_pass self;
     lbl_count := lbl_count self;
     lbl_status := lbl_status self;
     detail_view := detail_view self |}.

Definition set_chk_pass (self : MainWindow) (checked : bool) : MainWindow :=
  {| all_variants := all_variants self;
     filtered_variants := filtered_variants self;
     model_data := model_data self;
     search_input := search_input self;
     chk_pass := checked;
     lbl_count := lbl_count self;
     lbl_status := lbl_status self;
     detail_view := detail_view self |}.

(** What the user does: a click on the load button, in the surroundings
    [w]; a new text in the search field; a new state of the check box; a new
    selection in the table. *)
Inductive event :=
  | LoadClicked (w : world)
  | TextChanged (text : string)
  | StateChanged (checked : bool)
  | SelectionChanged (indexes : list Z).

(** The slot each signal is connected to. *)
Definition handle (ev : event) (self : MainWindow) : option MainWindow :=
  match ev with
  | LoadClicked w => Some (load_vcf w self)
  | TextChanged text => Some (apply_filters (set_search_input self text))
  | StateChanged checked => Some (apply_filters (set_chk_pass self checked))
  | SelectionChanged indexes => on_selection_changed indexes self
  end.

Fixpoint run (events : list event) (self : MainWindow) : option MainWindow :=
  match events with
  | [] => Some self
  | ev :: rest =>
      match handle ev self with
      | Some self' => run rest self'
      | None => None
      end
  end.

(** *** Vocabulary of the further properties *)

(** What the parse of [load_vcf] yields from an empty [all_variants]: the
    entries appended, and the exception raised, if any. *)
Definition attempt (w : world) : list V.t * option exn :=
  let path := chosen_path w in
  if HAS_PYSAM w then
    match VariantFile w path with
    | Unopenable e => ([], Some e)
    | Stream recs failure => (pysam_loop recs [], failure)
    end
  else
    match (if Py.endswith path ".gz" then gzip_open w else open_text w) path with
    | Unopenable e => ([], Some e)
    | Stream lines failure =>
        (fst (native_loop lines []),
         match snd (native_loop lines []) with
         | Some e => Some e
         | None => failure
         end)
    end.

(** The window after a load of [path] whose parse appended [all] to an
    empty list and raised nothing, and after one that raised [e]. *)
Definition loaded_ok (self : MainWindow) (path : string) (all : list V.t) : MainWindow :=
  set_status (apply_filters (set_all_variants (set_status self "Parsing...") all))
             ("Loaded: " ++ basename path).

Definition loaded_error (self : MainWindow) (all : list V.t) (e : exn) : MainWindow :=
  set_detail
    (set_status (set_all_variants (set_status self "Parsing...") all)
                "Error loading file")
    (ErrorText e).

(** The table and the counter show the filtered list. *)
Definition consistent (self : MainWindow) : Prop :=
  model_data self = filtered_variants self
  /\ lbl_count self
     = "Variants: " ++ Py.str_int (Z.of_nat (List.length (filtered_variants self))).

(** The strings made of decimal digits only, and the number they write. *)
Fixpoint all_digits (s : string) : bool :=
  match s with
  | EmptyString => true
  | String c r => Py.isdigit c && all_digits r
  end.

Fixpoint digits_value (s : string) (acc : Z) : Z :=
  match s with
  | EmptyString => acc
  | String c r => digits_value r (10 * acc + (Py.code c - 48))
  end.

(** No character of [s] satisfies [p]. *)
Fixpoint none_of (p : ascii -> bool) (s : string) : bool :=
  match s with
  | EmptyString => true
  | String c r => negb (p c) && none_of p r
  end.

(** ** Text beyond code point 255 *)

(** [str.lower()] on any text. A text is the list of its code points. The
    tables are those of the Unicode character database of CPython 3.11. *)
Module Unicode.

Definition text : Type := list Z.

Definition within (ranges : list (Z * Z)) (c : Z) : bool :=
  existsb (fun r => (fst r <=? c) && (c <=? snd r)) ranges.

(** The ranges of the cased characters. *)
Definition CASED : list (Z * Z) :=
  [
   (65, 90); (97, 122); (170, 170); (181, 181); (186, 186); (192, 214); (216, 246);
   (248, 442); (444, 447); (452, 659); (661, 696); (704, 705); (736, 740); (837, 837);
   (880, 883); (886, 887); (890, 893); (895, 895); (902, 902); (904, 906); (908, 908);
   (910, 929); (931, 1013); (1015, 1153); (1162, 1327); (1329, 1366); (1376, 1416);
   (4256, 4293); (4295, 4295); (4301, 4301); (4304, 4346); (4349, 4351); (5024, 5109);
   (5112, 5117); (7296, 7304); (7312, 7354); (7357, 7359); (7424, 7615); (7680, 7957);
   (7960, 7965); (7968, 8005); (8008, 8013); (8016, 8023); (8025, 8025); (8027, 8027);
   (8029, 8029); (8031, 8061); (8064, 8116); (8118, 8124); (8126, 8126); (8130, 8132);
   (8134, 8140); (8144, 8147); (8150, 8155); (8160, 8172); (8178, 8180); (8182, 8188);
   (8305, 8305); (8319, 8319); (8336, 8348); (8450, 8450); (8455, 8455); (8458, 8467);
   (8469, 8469); (8473, 8477); (8484, 8484); (8486, 8486); (8488, 8488); (8490, 8493);
   (8495, 8500); (8505, 8505); (8508, 8511); (8517, 8521); (8526, 8526); (8544, 8575);
   (8579, 8580); (9398, 9449); (11264, 11492); (11499, 11502); (11506, 11507);
   (11520, 11557); (11559, 11559); (11565, 11565); (42560, 42605); (42624, 42653);
   (42786, 42887); (42891, 42894); (42896, 42954); (42960, 42961); (42963, 42963);
   (42965, 42969); (42997, 42998); (43000, 43002); (43824, 43866); (43868, 43880);
   (43888, 43967); (64256, 64262); (64275, 64279); (65313, 65338); (65345, 65370);
   (66560, 66639); (66736, 66771); (66776, 66811); (66928, 66938); (66940, 66954);
   (66956, 66962); (66964, 66965); (66967, 66977); (66979, 66993); (66995, 67001);
   (67003, 67004); (67456, 67456); (67459, 67461); (67463, 67504); (67506, 67514);
   (68736, 68786); (68800, 68850); (71840, 71903); (93760, 93823); (119808, 119892);
   (119894, 119964); (119966, 119967); (119970, 119970); (119973, 119974);
   (119977, 119980); (119982, 119993); (119995, 119995); (119997, 120003);
   (120005, 120069); (120071, 120074); (120077, 120084); (120086, 120092);
   (120094, 120121); (120123, 120126); (120128, 120132); (120134, 120134);
   (120138, 120144); (120146, 120485); (120488, 120512); (120514, 120538);
   (120540, 120570); (120572, 120596); (120598, 120628); (120630, 120654);
   (120656, 120686); (120688, 120712); (120714, 120744); (120746, 120770);
   (120772, 120779); (122624, 122633); (122635, 122654); (125184, 125251);
   (127280, 127305); (127312, 127337); (127344, 127369)
  ].

(** The ranges of the case-ignorable characters. *)
Definition CASE_IGNORABLE : list (Z * Z) :=
  [
   (39, 39); (46, 46); (58, 58); (94, 94); (96, 96); (168, 168); (173, 173); (175, 175);
   (180, 180); (183, 184); (688, 879); (884, 885); (890, 890); (900, 901); (903, 903);
   (1155, 1161); (1369, 1369); (1375, 1375); (1425, 1469); (1471, 1471); (1473, 1474);
   (1476, 1477); (1479, 1479); (1524, 1524); (1536, 1541); (1552, 1562); (1564, 1564);
   (1600, 1600); (1611, 1631); (1648, 1648); (1750, 1757); (1759, 1768); (1770, 1773);
   (1807, 1807); (1809, 1809); (1840, 1866); (1958, 1968); (2027, 2037); (2042, 2042);
   (2045, 2045); (2070, 2093); (2137, 2139); (2184, 2184); (2192, 2193); (2200, 2207);
   (2249, 2306); (2362, 2362); (2364, 2364); (2369, 2376); (2381, 2381); (2385, 2391);
   (2402, 2403); (2417, 2417); (2433, 2433); (2492, 2492); (2497, 2500); (2509, 2509);
   (2530, 2531); (2558, 2558); (2561, 2562); (2620, 2620); (2625, 2626); (2631, 2632);
   (2635, 2637); (2641, 2641); (2672, 2673); (2677, 2677); (2689, 2690); (2748, 2748);
   (2753, 2757); (2759, 2760); (2765, 2765); (2786, 2787); (2810, 2815); (2817, 2817);
   (2876, 2876); (2879, 2879); (2881, 2884); (2893, 2893); (2901, 2902); (2914, 2915);
   (2946, 2946); (3008, 3008); (3021, 3021); (3072, 3072); (3076, 3076); (3132, 3132);
   (3134, 3136); (3142, 3144); (3146, 3149); (3157, 3158); (3170, 3171); (3201, 3201);
   (3260, 3260); (3263, 3263); (3270, 3270); (3276, 3277); (3298, 3299); (3328, 3329);
   (3387, 3388); (3393, 3396); (3405, 3405); (3426, 3427); (3457, 3457); (3530, 3530);
   (3538, 3540); (3542, 3542); (3633, 3633); (3636, 3642); (3654, 3662); (3761, 3761);
   (3764, 3772); (3782, 3782); (3784, 3789); (3864, 3865); (3893, 3893); (3895, 3895);
   (3897, 3897); (3953, 3966); (3968, 3972); (3974, 3975); (3981, 3991); (3993, 4028);
   (4038, 4038); (4141, 4144); (4146, 4151); (4153, 4154); (4157, 4158); (4184, 4185);
   (4190, 4192); (4209, 4212); (4226, 4226); (4229, 4230); (4237, 4237); (4253, 4253);
   (4348, 4348); (4957, 4959); (5906, 5908); (5938, 5939); (5970, 5971); (6002, 6003);
   (6068, 6069); (6071, 6077); (6086, 6086); (6089, 6099); (6103, 6103); (6109, 6109);
   (6155, 6159); (6211, 6211); (6277, 6278); (6313, 6313); (6432, 6434); (6439, 6440);
   (6450, 6450); (6457, 6459); (6679, 6680); (6683, 6683); (6742, 6742); (6744, 6750);
   (6752, 6752); (6754, 6754); (6757, 6764); (6771, 6780); (6783, 6783); (6823, 6823);
   (6832, 6862); (6912, 6915); (6964, 6964); (6966, 6970); (6972, 6972); (6978, 6978);
   (7019, 7027); (7040, 7041); (7074, 7077); (7080, 7081); (7083, 7085); (7142, 7142);
   (7144, 7145); (7149, 7149); (7151, 7153); (7212, 7219); (7222, 7223); (7288, 7293);
   (7376, 7378); (7380, 7392); (7394, 7400); (7405, 7405); (7412, 7412); (7416, 7417);
   (7468, 7530); (7544, 7544); (7579, 7679); (8125, 8125); (8127, 8129); (8141, 8143);
   (8157, 8159); (8173, 8175); (8189, 8190); (8203, 8207); (8216, 8217); (8228, 8228);
   (8231, 8231); (8234, 8238); (8288, 8292); (8294, 8303); (8305, 8305); (8319, 8319);
   (8336, 8348); (8400, 8432); (11388, 11389); (11503, 11505); (11631, 11631);
   (11647, 11647); (11744, 11775); (11823, 11823); (12293, 12293); (12330, 12333);
   (12337, 12341); (12347, 12347); (12441, 12446); (12540, 12542); (40981, 40981);
   (42232, 42237); (42508, 42508); (42607, 42610); (42612, 42621); (42623, 42623);
   (42652, 42655); (42736, 42737); (42752, 42785); (42864, 42864); (42888, 42890);
   (42994, 42996); (43000, 43001); (43010, 43010); (43014, 43014); (43019, 43019);
   (43045, 43046); (43052, 43052); (43204, 43205); (43232, 43249); (43263, 43263);
   (43302, 43309); (43335, 43345); (43392, 43394); (43443, 43443); (43446, 43449);
   (43452, 43453); (43471, 43471); (43493, 43494); (43561, 43566); (43569, 43570);
   (43573, 43574); (43587, 43587); (43596, 43596); (43632, 43632); (43644, 43644);
   (43696, 43696); (43698, 43700); (43703, 43704); (43710, 43711); (43713, 43713);
   (43741, 43741); (43756, 43757); (43763, 43764); (43766, 43766); (43867, 43871);
   (43881, 43883); (44005, 44005); (44008, 44008); (44013, 44013); (64286, 64286);
   (64434, 64450); (65024, 65039); (65043, 65043); (65056, 65071); (65106, 65106);
   (65109, 65109); (65279, 65279); (65287, 65287); (65294, 65294); (65306, 65306);
   (65342, 65342); (65344, 65344); (65392, 65392); (65438, 65439); (65507, 65507);
   (65529, 65531); (66045, 66045); (66272, 66272); (66422, 66426); (67456, 67461);
   (67463, 67504); (67506, 67514); (68097, 68099); (68101, 68102); (68108, 68111);
   (68152, 68154); (68159, 68159); (68325, 68326); (68900, 68903); (69291, 69292);
   (69446, 69456); (69506, 69509); (69633, 69633); (69688, 69702); (69744, 69744);
   (69747, 69748); (69759, 69761); (69811, 69814); (69817, 69818); (69821, 69821);
   (69826, 69826); (69837, 69837); (69888, 69890); (69927, 69931); (69933, 69940);
   (70003, 70003); (70016, 70017); (70070, 70078); (70089, 70092); (70095, 70095);
   (70191, 70193); (70196, 70196); (70198, 70199); (70206, 70206); (70367, 70367);
   (70371, 70378); (70400, 70401); (70459, 70460); (70464, 70464); (70502, 70508);
   (70512, 70516); (70712, 70719); (70722, 70724); (70726, 70726); (70750, 70750);
   (70835, 70840); (70842, 70842); (70847, 70848); (70850, 70851); (71090, 71093);
   (71100, 71101); (71103, 71104); (71132, 71133); (71219, 71226); (71229, 71229);
   (71231, 71232); (71339, 71339); (71341, 71341); (71344, 71349); (71351, 71351);
   (71453, 71455); (71458, 71461); (71463, 71467); (71727, 71735); (71737, 71738);
   (71995, 71996); (71998, 71998); (72003, 72003); (72148, 72151); (72154, 72155);
   (72160, 72160); (72193, 72202); (72243, 72248); (72251, 72254); (72263, 72263);
   (72273, 72278); (72281, 72283); (72330, 72342); (72344, 72345); (72752, 72758);
   (72760, 72765); (72767, 72767); (72850, 72871); (72874, 72880); (72882, 72883);
   (72885, 72886); (73009, 73014); (73018, 73018); (73020, 73021); (73023, 73029);
   (73031, 73031); (73104, 73105); (73109, 73109); (73111, 73111); (73459, 73460);
   (78896, 78904); (92912, 92916); (92976, 92982); (92992, 92995); (94031, 94031);
   (94095, 94111); (94176, 94177); (94179, 94180); (110576, 110579); (110581, 110587);
   (110589, 110590); (113821, 113822); (113824, 113827); (118528, 118573);
   (118576, 118598); (119143, 119145); (119155, 119170); (119173, 119179);
   (119210, 119213); (119362, 119364); (121344, 121398); (121403, 121452);
   (121461, 121461); (121476, 121476); (121499, 121503); (121505, 121519);
   (122880, 122886); (122888, 122904); (122907, 122913); (122915, 122916);
   (122918, 122922); (123184, 123197); (123566, 123566); (123628, 123631);
   (125136, 125142); (125252, 125259); (127995, 127999); (917505, 917505);
   (917536, 917631); (917760, 917999)
  ].

(** The characters with a lower-case form of one character: first and last
    code point of a run, the step of the run, and what to add. *)
Definition LOWERCASE : list (Z * Z * Z * Z) :=
  [
   (65, 90, 1, 32); (192, 214, 1, 32); (216, 222, 1, 32); (256, 302, 2, 1);
   (306, 310, 2, 1); (313, 327, 2, 1); (330, 374, 2, 1); (376, 376, 1, (-121));
   (377, 381, 2, 1); (385, 385, 1, 210); (386, 388, 2, 1); (390, 390, 1, 206);
   (391, 391, 1, 1); (393, 394, 1, 205); (395, 395, 1, 1); (398, 398, 1, 79);
   (399, 399, 1, 202); (400, 400, 1, 203); (401, 401, 1, 1); (403, 403, 1, 205);
   (404, 404, 1, 207); (406, 406, 1, 211); (407, 407, 1, 209); (408, 408, 1, 1);
   (412, 412, 1, 211); (413, 413, 1, 213); (415, 415, 1, 214); (416, 420, 2, 1);
   (422, 422, 1, 218); (423, 423, 1, 1); (425, 425, 1, 218); (428, 428, 1, 1);
   (430, 430, 1, 218); (431, 431, 1, 1); (433, 434, 1, 217); (435, 437, 2, 1);
   (439, 439, 1, 219); (440, 440, 1, 1); (444, 444, 1, 1); (452, 452, 1, 2);
   (453, 453, 1, 1); (455, 455, 1, 2); (456, 456, 1, 1); (458, 458, 1, 2);
   (459, 475, 2, 1); (478, 494, 2, 1); (497, 497, 1, 2); (498, 500, 2, 1);
   (502, 502, 1, (-97)); (503, 503, 1, (-56)); (504, 542, 2, 1); (544, 544, 1, (-130));
   (546, 562, 2, 1); (570, 570, 1, 10795); (571, 571, 1, 1); (573, 573, 1, (-163));
   (574, 574, 1, 10792); (577, 577, 1, 1); (579, 579, 1, (-195)); (580, 580, 1, 69);
   (581, 581, 1, 71); (582, 590, 2, 1); (880, 882, 2, 1); (886, 886, 1, 1);
   (895, 895, 1, 116); (902, 902, 1, 38); (904, 906, 1, 37); (908, 908, 1, 64);
   (910, 911, 1, 63); (913, 929, 1, 32); (931, 939, 1, 32); (975, 975, 1, 8);
   (984, 1006, 2, 1); (1012, 1012, 1, (-60)); (1015, 1015, 1, 1); (1017, 1017, 1, (-7));
   (1018, 1018, 1, 1); (1021, 1023, 1, (-130)); (1024, 1039, 1, 80); (1040, 1071, 1, 32);
   (1120, 1152, 2, 1); (1162, 1214, 2, 1); (1216, 1216, 1, 15); (1217, 1229, 2, 1);
   (1232, 1326, 2, 1); (1329, 1366, 1, 48); (4256, 4293, 1, 7264); (4295, 4295, 1, 7264);
   (4301, 4301, 1, 7264); (5024, 5103, 1, 38864); (5104, 5109, 1, 8);
   (7312, 7354, 1, (-3008)); (7357, 7359, 1, (-3008)); (7680, 7828, 2, 1);
   (7838, 7838, 1, (-7615)); (7840, 7934, 2, 1); (7944, 7951, 1, (-8));
   (7960, 7965, 1, (-8)); (7976, 7983, 1, (-8)); (7992, 7999, 1, (-8));
   (8008, 8013, 1, (-8)); (8025, 8031, 2, (-8)); (8040, 8047, 1, (-8));
   (8072, 8079, 1, (-8)); (8088, 8095, 1, (-8)); (8104, 8111, 1, (-8));
   (8120, 8121, 1, (-8)); (8122, 8123, 1, (-74)); (8124, 8124, 1, (-9));
   (8136, 8139, 1, (-86)); (8140, 8140, 1, (-9)); (8152, 8153, 1, (-8));
   (8154, 8155, 1, (-100)); (8168, 8169, 1, (-8)); (8170, 8171, 1, (-112));
   (8172, 8172, 1, (-7)); (8184, 8185, 1, (-128)); (8186, 8187, 1, (-126));
   (8188, 8188, 1, (-9)); (8486, 8486, 1, (-7517)); (8490, 8490, 1, (-8383));
   (8491, 8491, 1, (-8262)); (8498, 8498, 1, 28); (8544, 8559, 1, 16); (8579, 8579, 1, 1);
   (9398, 9423, 1, 26); (11264, 11311, 1, 48); (11360, 11360, 1, 1);
   (11362, 11362, 1, (-10743)); (11363, 11363, 1, (-3814)); (11364, 11364, 1, (-10727));
   (11367, 11371, 2, 1); (11373, 11373, 1, (-10780)); (11374, 11374, 1, (-10749));
   (11375, 11375, 1, (-10783)); (11376, 11376, 1, (-10782)); (11378, 11378, 1, 1);
   (11381, 11381, 1, 1); (11390, 11391, 1, (-10815)); (11392, 11490, 2, 1);
   (11499, 11501, 2, 1); (11506, 11506, 1, 1); (42560, 42604, 2, 1); (42624, 42650, 2, 1);
   (42786, 42798, 2, 1); (42802, 42862, 2, 1); (42873, 42875, 2, 1);
   (42877, 42877, 1, (-35332)); (42878, 42886, 2, 1); (42891, 42891, 1, 1);
   (42893, 42893, 1, (-42280)); (42896, 42898, 2, 1); (42902, 42920, 2, 1);
   (42922, 42922, 1, (-42308)); (42923, 42923, 1, (-42319)); (42924, 42924, 1, (-42315));
   (42925, 42925, 1, (-42305)); (42926, 42926, 1, (-42308)); (42928, 42928, 1, (-42258));
   (42929, 42929, 1, (-42282)); (42930, 42930, 1, (-42261)); (42931, 42931, 1, 928);
   (42932, 42946, 2, 1); (42948, 42948, 1, (-48)); (42949, 42949, 1, (-42307));
   (42950, 42950, 1, (-35384)); (42951, 42953, 2, 1); (42960, 42960, 1, 1);
   (42966, 42968, 2, 1); (42997, 42997, 1, 1); (65313, 65338, 1, 32);
   (66560, 66599, 1, 40); (66736, 66771, 1, 40); (66928, 66938, 1, 39);
   (66940, 66954, 1, 39); (66956, 66962, 1, 39); (66964, 66965, 1, 39);
   (68736, 68786, 1, 64); (71840, 71871, 1, 32); (93760, 93791, 1, 32);
   (125184, 125217, 1, 34)
  ].

Definition cased (c : Z) : bool := within CASED c.

Definition case_ignorable (c : Z) : bool := within CASE_IGNORABLE c.

Definition CAPITAL_SIGMA : Z := 931.
Definition SMALL_SIGMA : Z := 963.
Definition FINAL_SIGMA : Z := 962.

(** The lower-case form of one character, out of context: U+0130 gives two
    characters, the others one. *)
Definition lower_char (c : Z) : text :=
  if c =? 304 then [105; 775]
  else
    match find (fun r => let '(first, last, step, _) := r in
                         (first <=? c) && (c <=? last) && ((c - first) mod step =? 0))
               LOWERCASE with
    | Some (_, _, _, offset) => [c + offset]
    | None => [c]
    end.

(** After the case-ignorable characters at the head of [s] comes a cased
    character. *)
Fixpoint followed_by_cased (s : text) : bool :=
  match s with
  | [] => false
  | c :: r => if case_ignorable c then followed_by_cased r else cased c
  end.

(** [s.lower()], [after_cased] telling whether the last character before
    [s] that is not case-ignorable exists and is cased. A capital sigma
    becomes a final sigma after a cased character when no cased character
    follows, and a small sigma otherwise. *)
Fixpoint lower_from (after_cased : bool) (s : text) : text :=
  match s with
  | [] => []
  | c :: r =>
      ((if c =? CAPITAL_SIGMA then
          [if after_cased && negb (followed_by_cased r) then FINAL_SIGMA
           else SMALL_SIGMA]
        else lower_char c)
       ++ lower_from (if case_ignorable c then after_cased else cased c) r)%list
  end.

(** [s.lower()] *)
Definition lower (s : text) : text := lower_from false s.

Fixpoint prefix (p s : text) : bool :=
  match p, s with
  | [], _ => true
  | _ :: _, [] => false
  | a :: p', b :: s' => (a =? b) && prefix p' s'
  end.

(** [needle in hay] *)
Fixpoint contains (needle hay : text) : bool :=
  prefix needle hay ||
  match hay with
  | [] => false
  | _ :: r => contains needle r
  end.

Fixpoint eqb (a b : text) : bool :=
  match a, b with
  | [], [] => true
  | x :: a', y :: b' => (x =? y) && eqb a' b'
  | _, _ => false
  end.

Definition truthy (s : text) : bool :=
  match s with [] => false | _ => true end.

(** The text of a string of code points below 256. *)
Fixpoint of_string (s : string) : text :=
  match s with
  | EmptyString => []
  | String c r => Py.code c :: of_string r
  end.

(** One entry of [all_variants], its texts being any texts. *)
Module V.
Record t := {
  chrom : text;
  pos : Z;
  id : option text;
  ref : text;
  alt : text;
  qual : option spec_float;
  filter : text;
  info : text;
  raw_info : text
}.
End V.

(** [str(x)] for an [id]. *)
Definition str_id (x : option text) : text :=
  match x with
  | None => of_string "None"
  | Some s => s
  end.

(** The loop of [apply_filters]. *)
Fixpoint filter_loop (search_text : text) (show_pass : bool)
    (vs : list V.t) (filtered : list V.t) : list V.t :=
  match vs with
  | [] => filtered
  | v :: rest =>
      if show_pass && negb (eqb (V.filter v) (of_string "PASS")) then
        filter_loop search_text show_pass rest filtered
      else if truthy search_text
              && (negb (contains search_text (lower (V.chrom v)))
                  && negb (contains search_text (of_string (Py.str_int (V.pos v))))
                  && negb (contains search_text (lower (str_id (V.id v))))
                  && negb (contains search_text (lower (V.info v)))) then
        filter_loop search_text show_pass rest filtered
      else filter_loop search_text show_pass rest (filtered ++ [v])%list
  end.

Definition visible (query : text) (show_pass : bool) (all : list V.t) : list V.t :=
  filter_loop (lower query) show_pass all [].

(** The test of the search text on one entry, and the entries the loop
    appends. *)
Definition searched (search_text : text) (v : V.t) : bool :=
  contains search_text (lower (V.chrom v))
  || contains search_text (of_string (Py.str_int (V.pos v)))
  || contains search_text (lower (str_id (V.id v)))
  || contains search_text (lower (V.info v)).

Definition kept (search_text : text) (show_pass : bool) (v : V.t) : bool :=
  negb (show_pass && negb (eqb (V.filter v) (of_string "PASS")))
  && negb (truthy search_text && negb (searched search_text v)).

End Unicode.



Definition sigma_variant : Unicode.V.t :=
  {| Unicode.V.chrom := [945; 963; 945];
     Unicode.V.pos := 100;
     Unicode.V.id := Some (Unicode.of_string ".");
     Unicode.V.ref := Unicode.of_string "A";
     Unicode.V.alt := Unicode.of_string "G";
     Unicode.V.qual := None;
     Unicode.V.filter := Unicode.of_string "PASS";
     Unicode.V.info := Unicode.of_string "DP=10";
     Unicode.V.raw_info := [] |}.

(** ** The embedding at work *)

Section Evaluation.

Example float_of_literals :
  PyFloat.float "29.456" = Some (S754_finite false 8291126913989083 (-48))
  /\ PyFloat.float " 1_0.5e1 " = Some (S754_finite false 7388718138654720 (-46))
  /\ PyFloat.float "-inf" = Some (S754_infinity true)
  /\ PyFloat.float "1e-400" = Some PyFloat.zero
  /\ PyFloat.float "." = None
  /\ PyFloat.float "high" = None.
Proof. repeat split; vm_compute; reflexivity. Qed.

Example str_of_floats :
  PyFloat.str (S754_finite false 8291126913989083 (-48)) = "29.456"
  /\ PyFloat.str (PyFloat.round2 (S754_finite false 8291126913989083 (-48))) = "29.46"
  /\ PyFloat.str (S754_finite false 7388718138654720 (-46)) = "105.0"
  /\ PyFloat.str (S754_finite false 5902958103587057 (-69)) = "1e-05"
  /\ PyFloat.str (S754_finite false 5000000000000000 1) = "1e+16".
Proof. repeat split; vm_compute; reflexivity. Qed.

Example int_of_literals :
  Py.int "2500" = Some 2500 /\ Py.int " -7 " = Some (-7) /\ Py.int "1_000" = Some 1000
  /\ Py.int "x" = None /\ Py.int "12.0" = None /\ Py.int "" = None.
Proof. repeat split; vm_compute; reflexivity. Qed.

Example parse_sentinel_line :
  parse_native_line sentinel_line
  = Append {| V.chrom := "chr1";
              V.pos := 100;
              V.id := Some ".";
              V.ref := "A";
              V.alt := "G";
              V.qual := Some (S754_zero false);
              V.filter := "PASS";
              V.info := "DP=10";
              V.raw_info := sentinel_line |}.
Proof. vm_compute. reflexivity. Qed.

Example show_valid_line :
  map (data (entry valid_line 2500)) [0; 1; 2; 3; 4; 5; 6; 7; 8]
  = [Some "chr2"; Some "2500"; Some "rs77"; Some "C"; Some "T"; Some "29.46";
     Some "q10"; Some "DP=7;AF=0.5"; None].
Proof. vm_compute. reflexivity. Qed.

Example variant_of_sentinel_rec :
  variant_of_rec sentinel_rec
  = {| V.chrom := "chr1";
       V.pos := 100;
       V.id := None;
       V.ref := "A";
       V.alt := "G";
       V.qual := None;
       V.filter := "PASS";
       V.info := "DP=10";
       V.raw_info := sentinel_line |}.
Proof. vm_compute. reflexivity. Qed.

Example info_parts :
  map info_part
      [("DB", Scalar (SBool true)); ("AC", Tuple [SInt 1; SInt 2]);
       ("AF", Scalar (SFloat (S754_finite false 4503599627370496 (-53))));
       ("H2", Scalar (SBool false)); ("AA", Scalar (SStr "T"))]
  = ["DB"; "AC=1,2"; "AF=0.5"; "H2=False"; "AA=T"].
Proof. vm_compute. reflexivity. Qed.

Example load_then_filter :
  let w := text_file_world "/data/a.vcf" [sentinel_line; short_line; valid_line] in
  let self := load_vcf w empty_window in
  lbl_status self = "Loaded: a.vcf"
  /\ lbl_count self = "Variants: 2"
  /\ map V.raw_info (filtered_variants self) = [sentinel_line; valid_line].
Proof. repeat split; vm_compute; reflexivity. Qed.

End Evaluation.

(** * Properties *)

(** ** Strings *)

Section StringFacts.

Lemma prefix_app (p s : string) :
  String.prefix p s = true <-> exists t, s = p ++ t.
Proof.
  revert s; induction p as [|c p IH]; intros s; simpl.
  - split; [intros _; now exists s | now destruct s].
  - destruct s as [|d s].
    + split; [discriminate | intros [t Ht]; discriminate].
    + simpl. destruct (ascii_dec c d) as [->|Hne].
      * rewrite IH. split; intros [t Ht]; exists t; [now rewrite Ht | now inversion Ht].
      * split; [discriminate | intros [t Ht]; inversion Ht; congruence].
Qed.

Lemma string_app_assoc (a b c : string) : (a ++ b) ++ c = a ++ b ++ c.
Proof. induction a as [|x a IH]; simpl; [reflexivity | now rewrite IH]. Qed.


Lemma contains_nil (needle : string) :
  Py.contains needle "" = String.prefix needle "".
Proof. unfold Py.contains. apply orb_false_r. Qed.

Lemma contains_cons (needle : string) (c : ascii) (hay : string) :
  Py.contains needle (String c hay)
  = String.prefix needle (String c hay) || Py.contains needle hay.
Proof. reflexivity. Qed.

(** [needle in hay] holds exactly when [hay] is [needle] with something
    before and after it. *)
Lemma contains_app (needle hay : string) :
  Py.contains needle hay = true <-> exists a b, hay = a ++ needle ++ b.
Proof.
  induction hay as [|c hay IH].
  - rewrite contains_nil, prefix_app. split.
    + intros [t Ht]. now exists "", t.
    + intros [a [b H]]. destruct a; [now exists b | discriminate].
  - rewrite contains_cons, orb_true_iff, prefix_app, IH. split.
    + intros [[t Ht] | [a [b H]]].
      * now exists "", t.
      * exists (String c a), b. simpl. now rewrite H.
    + intros [a [b H]]. destruct a as [|d a].
      * left. now exists b.
      * right. exists a, b. simpl in H. now inversion H.
Qed.


Lemma lower_app (a b : string) : Py.lower (a ++ b) = Py.lower a ++ Py.lower b.
Proof. induction a as [|x a IH]; simpl; [reflexivity | now rewrite IH]. Qed.

(** Lowering both sides keeps an occurrence. *)
Lemma contains_lower (a b : string) :
  Py.contains a b = true -> Py.contains (Py.lower a) (Py.lower b) = true.
Proof.
  rewrite !contains_app. intros [x [y H]]. subst.
  exists (Py.lower x), (Py.lower y). now rewrite !lower_app.
Qed.

Lemma truthy_lower (s : string) : Py.truthy (Py.lower s) = Py.truthy s.
Proof. now destruct s. Qed.

Lemma truthy_eqb (s : string) : Py.truthy s = negb (String.eqb s "").
Proof. now destruct s. Qed.

Lemma lower_digit_char (d : Z) : 0 <= d < 10 -> Py.lower_char (Py.digit_char d) = Py.digit_char d.
Proof.
  intros H.
  assert (d = 0 \/ d = 1 \/ d = 2 \/ d = 3 \/ d = 4 \/ d = 5 \/ d = 6 \/ d = 7
          \/ d = 8 \/ d = 9) as Hd by lia.
  repeat (destruct Hd as [-> | Hd]; [reflexivity|]). now subst.
Qed.

Lemma digits_of_caseless (fuel : nat) (n : Z) (acc : string) :
  caseless acc -> caseless (Py.digits_of fuel n acc).
Proof.
  revert n acc; induction fuel as [|f IH]; intros n acc Hacc; simpl; [exact Hacc|].
  assert (caseless (String (Py.digit_char (n mod 10)) acc)) as H.
  { unfold caseless in *. simpl. rewrite Hacc, lower_digit_char; [reflexivity|].
    apply Z.mod_pos_bound; lia. }
  destruct (n / 10 =? 0); [exact H | now apply IH].
Qed.

(** [str(n)] has no letters: [lower()] leaves it alone. *)
Lemma lower_str_int (n : Z) : Py.lower (Py.str_int n) = Py.str_int n.
Proof.
  assert (forall k, Py.lower (Py.str_nat k) = Py.str_nat k) as H
    by (intros k; now apply digits_of_caseless).
  unfold Py.str_int. destruct (n <? 0); [|apply H].
  change (String "-" (Py.lower (Py.str_nat (- n))) = String "-" (Py.str_nat (- n))).
  now rewrite H.
Qed.

End StringFacts.

(** ** Lists *)

Section ListFacts.

Context {A : Type}.

Lemma Subsequence_filter (f : A -> bool) (l : list A) : Subsequence (List.filter f l) l.
Proof.
  induction l as [|x l IH]; simpl; [constructor|].
  destruct (f x); constructor; assumption.
Qed.

Lemma Subsequence_length (l1 l2 : list A) :
  Subsequence l1 l2 -> (List.length l1 <= List.length l2)%nat.
Proof. induction 1; simpl; lia. Qed.

Lemma Subsequence_In (l1 l2 : list A) (x : A) :
  Subsequence l1 l2 -> In x l1 -> In x l2.
Proof. induction 1; simpl; intuition. Qed.

Lemma Subsequence_firstn (n : nat) (l : list A) : Subsequence (firstn n l) l.
Proof.
  revert n; induction l as [|x l IH]; intros [|n]; simpl; try constructor.
  - apply (IH 0%nat).
  - apply IH.
Qed.

Lemma Subsequence_trans (l1 l2 l3 : list A) :
  Subsequence l1 l2 -> Subsequence l2 l3 -> Subsequence l1 l3.
Proof.
  intros H12 H23; revert l1 H12.
  induction H23 as [|x l2 l3 H IH|x l2 l3 H IH]; intros l1 H12.
  - exact H12.
  - inversion H12; subst; constructor; auto.
  - constructor; auto.
Qed.

Lemma filter_twice (f : A -> bool) (l : list A) :
  List.filter f (List.filter f l) = List.filter f l.
Proof.
  induction l as [|x l IH]; simpl; [reflexivity|].
  destruct (f x) eqn:E; simpl; [rewrite E, IH|]; auto.
Qed.

Lemma filter_ext_eq (f g : A -> bool) (l : list A) :
  (forall x, f x = g x) -> List.filter f l = List.filter g l.
Proof.
  intros H; induction l as [|x l IH]; simpl; [reflexivity|].
  now rewrite H, IH.
Qed.

(** A stronger test keeps fewer elements. *)
Lemma filter_length_le (f g : A -> bool) (l : list A) :
  (forall x, f x = true -> g x = true) ->
  (List.length (List.filter f l) <= List.length (List.filter g l))%nat.
Proof.
  intros H; induction l as [|x l IH]; simpl; [lia|].
  destruct (f x) eqn:E.
  - rewrite (H x E). simpl. lia.
  - destruct (g x); simpl; lia.
Qed.

End ListFacts.

(** ** The filter *)

Section FilterFacts.

(** The loop of [apply_filters] is a [filter] with the test [kept]. *)
Lemma filter_loop_filter (search_text : string) (show_pass : bool)
    (vs filtered : list V.t) :
  filter_loop search_text show_pass vs filtered
  = (filtered ++ List.filter (kept search_text show_pass) vs)%list.
Proof.
  revert filtered; induction vs as [|v vs IH]; intros filtered; simpl.
  - now rewrite app_nil_r.
  - unfold kept at 1, searched.
    destruct (show_pass && negb (V.filter v =? "PASS")%string); simpl; [apply IH|].
    rewrite !negb_orb.
    destruct (Py.truthy search_text
              && (negb (Py.contains search_text (Py.lower (V.chrom v)))
                  && negb (Py.contains search_text (Py.str_int (V.pos v)))
                  && negb (Py.contains search_text (Py.lower (str_id (V.id v))))
                  && negb (Py.contains search_text (Py.lower (V.info v))))); simpl.
    + apply IH.
    + rewrite IH, <- app_assoc. reflexivity.
Qed.

Lemma visible_filter (query : string) (show_pass : bool) (all : list V.t) :
  visible query show_pass all = List.filter (kept (Py.lower query) show_pass) all.
Proof. unfold visible. now rewrite filter_loop_filter. Qed.

(** The test of the code is the predicate of the specification. *)
Lemma kept_includes (query : string) (passOnly : bool) (v : V.t) :
  kept (Py.lower query) passOnly v = includes query passOnly v.
Proof.
  unfold kept, includes, searched, contains_nocase.
  rewrite truthy_lower, truthy_eqb, lower_str_int.
  destruct passOnly; simpl;
    destruct (V.filter v =? "PASS")%string; simpl; try reflexivity;
    destruct (query =? "")%string; simpl; try reflexivity;
    now rewrite negb_involutive.
Qed.

End FilterFacts.

(** ** Splitting a stripped line *)

Section SplitFacts.

Variable sep : ascii.

(** A split gives one field more than there are separators. *)
Lemma split_length (s : string) :
  List.length (Py.split sep s) = S (occurrences sep s).
Proof.
  induction s as [|c r IH]; simpl; [reflexivity|].
  destruct (Ascii.eqb c sep); simpl; [now rewrite IH|].
  destruct (Py.split sep r); simpl in *; [discriminate | exact IH].
Qed.

Lemma occurrences_cons (c : ascii) (r : string) :
  (occurrences sep r <= occurrences sep (String c r))%nat.
Proof. simpl. destruct (Ascii.eqb c sep); lia. Qed.

Lemma occurrences_lstrip (p : ascii -> bool) (s : string) :
  (occurrences sep (Py.lstrip_by p s) <= occurrences sep s)%nat.
Proof.
  induction s as [|c r IH]; [simpl; lia|].
  cbn [Py.lstrip_by]. destruct (p c); [|lia].
  pose proof (occurrences_cons c r). lia.
Qed.

Lemma occurrences_rstrip (p : ascii -> bool) (s : string) :
  (occurrences sep (Py.rstrip_by p s) <= occurrences sep s)%nat.
Proof.
  induction s as [|c r IH]; [simpl; lia|].
  cbn [Py.rstrip_by]. destruct (Py.rstrip_by p r) as [|d r'] eqn:E.
  - destruct (p c); simpl; destruct (Ascii.eqb c sep); simpl in *; lia.
  - simpl in *. destruct (Ascii.eqb c sep); lia.
Qed.

(** Stripping a line never adds a field. *)
Lemma split_strip_length (s : string) :
  (List.length (Py.split sep (Py.strip s)) <= List.length (Py.split sep s))%nat.
Proof.
  rewrite !split_length. unfold Py.strip.
  pose proof (occurrences_rstrip Py.isspace (Py.lstrip_by Py.isspace s)).
  pose proof (occurrences_lstrip Py.isspace s). lia.
Qed.

End SplitFacts.

(** ** The native parser *)

Section NativeFacts.

(** The outcome of a line, by its shape. *)
Lemma parse_native_line_not_data (line : string) :
  is_data_line line = false -> parse_native_line line = Continue.
Proof.
  unfold is_data_line, parse_native_line, columns. intros H.
  destruct (Py.startswith line "#"); [reflexivity|]. simpl in H.
  destruct (Z.ltb_spec (Z.of_nat (List.length (Py.split TAB (Py.strip line)))) 8);
    [reflexivity|].
  apply Z.leb_gt in H. lia.
Qed.

Lemma parse_native_line_data (line : string) :
  is_data_line line = true ->
  parse_native_line line =
    match Py.int (col (columns line) 1) with
    | Some p => Append (entry line p)
    | None => Raise (ValueError (col (columns line) 1))
    end.
Proof.
  unfold is_data_line, parse_native_line, columns, entry. intros H.
  apply andb_prop in H as [H1 H2].
  destruct (Py.startswith line "#"); [discriminate|].
  destruct (Z.ltb_spec (Z.of_nat (List.length (Py.split TAB (Py.strip line)))) 8);
    [apply Z.leb_le in H2; lia | reflexivity].
Qed.

Lemma parse_native_line_Append (line : string) (v : V.t) :
  parse_native_line line = Append v ->
  is_data_line line = true
  /\ exists p, Py.int (col (columns line) 1) = Some p /\ v = entry line p.
Proof.
  intros H. destruct (is_data_line line) eqn:E.
  - split; [reflexivity|]. rewrite (parse_native_line_data line E) in H.
    destruct (Py.int (col (columns line) 1)) as [p|]; [|discriminate].
    exists p. split; [reflexivity | now inversion H].
  - rewrite (parse_native_line_not_data line E) in H. discriminate.
Qed.

Lemma emitted_raw_info (line : string) (v : V.t) :
  In v (emitted line) -> V.raw_info v = line /\ parse_native_line line = Append v.
Proof.
  unfold emitted. destruct (parse_native_line line) as [|v'|e] eqn:E; simpl;
    try contradiction.
  intros [<-|[]]. split; [|reflexivity].
  apply parse_native_line_Append in E as [_ [p [_ ->]]]. reflexivity.
Qed.

(** The loop appends to what [all_variants] held. *)
Lemma native_loop_acc (lines : list string) (all : list V.t) :
  native_loop lines all
  = ((all ++ fst (native_loop lines []))%list, snd (native_loop lines [])).
Proof.
  revert all. induction lines as [|line rest IH]; intros all; simpl.
  - now rewrite app_nil_r.
  - destruct (parse_native_line line) as [|v|e]; simpl.
    + apply IH.
    + rewrite (IH (all ++ [v])%list), (IH [v]). simpl. now rewrite <- app_assoc.
    + now rewrite app_nil_r.
Qed.

Lemma native_loop_consumed (lines : list string) :
  fst (native_loop lines []) = flat_map emitted (firstn (consumed lines) lines).
Proof.
  induction lines as [|line rest IH]; [reflexivity|].
  cbn [native_loop consumed].
  destruct (parse_native_line line) as [|v|e] eqn:E;
    cbn [firstn flat_map fst]; try (unfold emitted at 1; rewrite E).
  - exact IH.
  - rewrite native_loop_acc. cbn [fst]. now rewrite IH.
  - reflexivity.
Qed.

Lemma native_loop_finished (lines : list string) :
  snd (native_loop lines []) = None -> consumed lines = List.length lines.
Proof.
  induction lines as [|line rest IH]; simpl; [reflexivity|].
  destruct (parse_native_line line) as [|v|e]; simpl.
  - intros H. now rewrite IH.
  - rewrite native_loop_acc. simpl. intros H. now rewrite IH.
  - discriminate.
Qed.

(** No line raises: the loop ends normally with every line's entries. *)
Lemma native_loop_total (lines : list string) (all : list V.t) :
  (forall line, In line lines -> forall e, parse_native_line line <> Raise e) ->
  native_loop lines all = ((all ++ flat_map emitted lines)%list, None).
Proof.
  revert all. induction lines as [|line rest IH]; intros all H; simpl.
  - now rewrite app_nil_r.
  - unfold emitted at 1.
    destruct (parse_native_line line) as [|v|e] eqn:E; simpl.
    + apply IH. intros l Hl. apply H. now right.
    + rewrite IH; [now rewrite <- app_assoc|]. intros l Hl. apply H. now right.
    + exfalso. apply (H line (or_introl eq_refl) e E).
Qed.

Lemma flat_map_emitted_raw (lines : list string) :
  map V.raw_info (flat_map emitted lines)
  = List.filter (fun line => match emitted line with [] => false | _ => true end) lines.
Proof.
  induction lines as [|line rest IH]; simpl; [reflexivity|].
  rewrite map_app, IH.
  destruct (emitted line) as [|v l] eqn:E; simpl; [reflexivity|].
  assert (In v (emitted line)) as Hv by (rewrite E; now left).
  apply emitted_raw_info in Hv as [-> Hp].
  unfold emitted in E. rewrite Hp in E. inversion E; subst. reflexivity.
Qed.

(** When the loop ends normally, no line has raised. *)
Lemma native_loop_no_raise (lines : list string) :
  snd (native_loop lines []) = None ->
  forall line, In line lines -> forall e, parse_native_line line <> Raise e.
Proof.
  induction lines as [|l rest IH]; simpl; [intros _ line []|].
  destruct (parse_native_line l) as [|v|e'] eqn:E; simpl.
  - intros H line [<-|Hin] e; [congruence | now apply IH].
  - rewrite native_loop_acc. simpl. intros H line [<-|Hin] e; [congruence | now apply IH].
  - discriminate.
Qed.

(** A data line with an integer POS is the only kind of line that does not
    raise and gives an entry. *)
Lemma no_raise_int_pos (lines : list string) :
  (forall line, In line lines -> is_data_line line = true ->
                Py.int (col (columns line) 1) <> None) ->
  forall line, In line lines -> forall e, parse_native_line line <> Raise e.
Proof.
  intros Hpos line Hin e He. destruct (is_data_line line) eqn:Hd.
  - rewrite (parse_native_line_data line Hd) in He.
    destruct (Py.int (col (columns line) 1)) eqn:Hi; [discriminate|].
    now apply (Hpos line Hin Hd).
  - rewrite (parse_native_line_not_data line Hd) in He. discriminate.
Qed.

Lemma emitted_data_lines (lines : list string) :
  (forall line, In line lines -> forall e, parse_native_line line <> Raise e) ->
  map V.raw_info (flat_map emitted lines) = List.filter is_data_line lines.
Proof.
  intros Hno. rewrite flat_map_emitted_raw.
  induction lines as [|line rest IH]; simpl; [reflexivity|].
  rewrite IH by (intros l Hl; apply Hno; now right).
  assert (match emitted line with [] => false | _ => true end = is_data_line line)
    as ->; [|reflexivity].
  unfold emitted. destruct (is_data_line line) eqn:Hd.
  - rewrite (parse_native_line_data line Hd).
    destruct (Py.int (col (columns line) 1)) eqn:Hi; [reflexivity|].
    exfalso. apply (Hno line (or_introl eq_refl) (ValueError (col (columns line) 1))).
    now rewrite (parse_native_line_data line Hd), Hi.
  - now rewrite (parse_native_line_not_data line Hd).
Qed.

Lemma pysam_loop_map (recs : list Rec.t) (all : list V.t) :
  pysam_loop recs all = (all ++ map variant_of_rec recs)%list.
Proof.
  revert all. induction recs as [|rec rest IH]; intros all; simpl.
  - now rewrite app_nil_r.
  - now rewrite IH, <- app_assoc.
Qed.

End NativeFacts.

(** ** Loading *)

Section LoadFacts.

Lemma load_vcf_open_fails (w : world) (self : MainWindow) (e : exn) :
  chosen_path w <> "" ->
  open_fails w e ->
  load_vcf w self =
    set_detail
      (set_status (set_all_variants (set_status self "Parsing...") [])
                  "Error loading file")
      (ErrorText e).
Proof.
  intros Hpath Hopen. unfold load_vcf, open_fails in *.
  destruct (chosen_path w) as [|c path] eqn:E; [contradiction|].
  cbn [Py.truthy negb].
  destruct (HAS_PYSAM w).
  - unfold parse_with_pysam. now rewrite Hopen.
  - unfold parse_native. now rewrite Hopen.
Qed.

(** A load that ends in the error status has not touched the filtered
    list nor the table. *)
Lemma load_vcf_error_visible (w : world) (self : MainWindow) :
  lbl_status (load_vcf w self) = "Error loading file" ->
  filtered_variants (load_vcf w self) = filtered_variants self
  /\ model_data (load_vcf w self) = model_data self.
Proof.
  unfold load_vcf.
  destruct (negb (Py.truthy (chosen_path w))); [now intros _|].
  destruct (HAS_PYSAM w).
  - unfold parse_with_pysam.
    destruct (VariantFile w (chosen_path w)) as [e|recs [e|]]; simpl;
      try (now intros _); discriminate.
  - unfold parse_native.
    destruct ((if Py.endswith (chosen_path w) ".gz" then gzip_open w else open_text w)
                (chosen_path w)) as [e|lines failure]; [now intros _|].
    destruct (native_loop lines
                (all_variants (set_all_variants (set_status self "Parsing...") [])))
      as [all [e|]]; [now intros _|].
    destruct failure as [e|]; simpl; [now intros _ | discriminate].
Qed.

(** A load on the native path whose file opens, is read to its end and
    has no line that raises: the entries of the lines, then the filter. *)
Lemma load_vcf_native_ok (w : world) (self : MainWindow) (lines : list string) :
  chosen_path w <> "" ->
  HAS_PYSAM w = false ->
  (if Py.endswith (chosen_path w) ".gz" then gzip_open w else open_text w)
    (chosen_path w) = Stream lines None ->
  snd (native_loop lines []) = None ->
  all_variants (load_vcf w self) = flat_map emitted lines
  /\ filtered_variants (load_vcf w self)
     = visible (search_input self) (chk_pass self) (flat_map emitted lines)
  /\ model_data (load_vcf w self) = filtered_variants (load_vcf w self).
Proof.
  intros Hpath Hpysam Hopen Hok. unfold load_vcf.
  destruct (chosen_path w) as [|c path] eqn:E; [contradiction|].
  cbn [Py.truthy negb]. rewrite Hpysam. unfold parse_native. rewrite Hopen.
  cbn [all_variants set_all_variants].
  rewrite (native_loop_total lines [] (native_loop_no_raise lines Hok)).
  simpl. repeat split.
Qed.

End LoadFacts.

(** * The claims *)

(** C1, as it stands, fails: the line whose QUAL is ["."] and the line
    whose QUAL is ["0"] store the same [qual], and the table shows ["."] for
    the parsed zero. *)
Lemma C1_absent_qual_not_distinguished :
  exists v_absent v_zero,
    parse_native_line sentinel_line = Append v_absent
    /\ parse_native_line zero_qual_line = Append v_zero
    /\ col (columns sentinel_line) 5 = "."
    /\ col (columns zero_qual_line) 5 = "0"
    /\ PyFloat.float "0" = Some PyFloat.zero
    /\ V.qual v_absent = V.qual v_zero
    /\ data v_zero 5 = Some ".".
Proof.
  do 2 eexists. repeat split; vm_compute; reflexivity.
Qed.

(** C1, amended. For a data line whose QUAL field is ["."] or is not a
    float literal, the native parser stores the float [0.0], the value a
    QUAL field of zero is stored as. The table shows ["."] for every [qual]
    that is zero or [None], and the number rounded to two decimals for every
    other [qual]. *)
Theorem C1_absent_qual_is_zero :
  (forall line v,
      parse_native_line line = Append v ->
      col (columns line) 5 = "." \/ PyFloat.float (col (columns line) 5) = None ->
      V.qual v = Some PyFloat.zero /\ data v 5 = Some ".")
  /\ (forall v, V.qual v = None \/ is_zero (V.qual v) = true -> data v 5 = Some ".")
  /\ (forall v q,
        V.qual v = Some q -> PyFloat.truthy q = true ->
        data v 5 = Some (PyFloat.str (PyFloat.round2 q))).
Proof.
  assert (forall v, V.qual v = None \/ is_zero (V.qual v) = true -> data v 5 = Some ".")
    as Hdot.
  { intros v H. unfold data. simpl.
    destruct (V.qual v) as [[s|s| |s m e]|]; simpl in *;
      try reflexivity; destruct H; discriminate. }
  split; [|split; [exact Hdot|]].
  - intros line v Hv Hq.
    apply parse_native_line_Append in Hv as [_ [p [_ ->]]].
    assert (V.qual (entry line p) = Some PyFloat.zero) as Hz.
    { unfold entry. cbn [V.qual]. destruct Hq as [-> | ->]; [reflexivity|].
      now destruct (negb (col (columns line) 5 =? ".")%string). }
    split; [exact Hz|]. apply Hdot. right. now rewrite Hz.
  - intros v q Hq Ht. unfold data. simpl. now rewrite Hq, Ht.
Qed.

Lemma C1_absent_qual_is_zero_witness :
  (V.qual (entry bad_qual_line 300) = Some PyFloat.zero
   /\ data (entry bad_qual_line 300) 5 = Some ".")
  /\ data (variant_of_rec sentinel_rec) 5 = Some "."
  /\ data (entry valid_line 2500) 5 = Some "29.46".
Proof.
  split; [|split].
  - apply (proj1 C1_absent_qual_is_zero bad_qual_line (entry bad_qual_line 300)).
    + vm_compute. reflexivity.
    + right. vm_compute. reflexivity.
  - apply (proj1 (proj2 C1_absent_qual_is_zero) (variant_of_rec sentinel_rec)).
    left. reflexivity.
  - rewrite (proj2 (proj2 C1_absent_qual_is_zero) (entry valid_line 2500)
               (S754_finite false 8291126913989083 (-48))).
    + vm_compute. reflexivity.
    + vm_compute. reflexivity.
    + reflexivity.
Defined.

(** C2, as it stands, fails: after a load whose file cannot be opened, the
    list of all records of a window that held one entry is empty. *)
Lemma C2_failed_open_clears_all_variants :
  open_fails missing_file_world (EnvironmentError "No such file or directory")
  /\ all_variants loaded_window = [sample_variant]
  /\ all_variants (load_vcf missing_file_world loaded_window) = [].
Proof.
  repeat split.
Qed.

(** C2, amended. When the chosen file cannot be opened, no record of the
    attempt is stored or shown: the filtered list and the table keep what
    they held, the status reports the error, and the list of all records is
    empty, whatever it held before. Whenever a load ends in the error
    status, the filtered list and the table are what they were. *)
Theorem C2_failed_open :
  (forall w self e,
      chosen_path w <> "" ->
      open_fails w e ->
      all_variants (load_vcf w self) = []
      /\ filtered_variants (load_vcf w self) = filtered_variants self
      /\ model_data (load_vcf w self) = model_data self
      /\ lbl_count (load_vcf w self) = lbl_count self
      /\ lbl_status (load_vcf w self) = "Error loading file"
      /\ detail_view (load_vcf w self) = ErrorText e)
  /\ (forall w self,
        lbl_status (load_vcf w self) = "Error loading file" ->
        filtered_variants (load_vcf w self) = filtered_variants self
        /\ model_data (load_vcf w self) = model_data self).
Proof.
  split.
  - intros w self e Hpath Hopen. rewrite (load_vcf_open_fails w self e Hpath Hopen).
    repeat split.
  - apply load_vcf_error_visible.
Qed.

Lemma C2_failed_open_witness :
  (all_variants (load_vcf missing_file_world loaded_window) = []
   /\ filtered_variants (load_vcf missing_file_world loaded_window) = [sample_variant])
  /\ model_data (load_vcf missing_file_world loaded_window) = [sample_variant].
Proof.
  split.
  - destruct (proj1 C2_failed_open missing_file_world loaded_window
                (EnvironmentError "No such file or directory"))
      as [H1 [H2 _]].
    + discriminate.
    + reflexivity.
    + split; [exact H1 | exact H2].
  - destruct (proj2 C2_failed_open missing_file_world loaded_window) as [_ H].
    + reflexivity.
    + exact H.
Defined.

(** C3, as it stands, fails: a line whose POS is not an integer ends the
    loop with a [ValueError], the valid line after it gives no entry and the
    load reports an error; and a line whose QUAL is not a float is not
    skipped but stored. *)
Lemma C3_bad_pos_aborts :
  (exists v, parse_native_line valid_line = Append v)
  /\ native_loop [bad_pos_line; valid_line] [] = ([], Some (ValueError "x"))
  /\ lbl_status (load_vcf (text_file_world "a.vcf" [bad_pos_line; valid_line])
                          empty_window) = "Error loading file"
  /\ filtered_variants (load_vcf (text_file_world "a.vcf" [bad_pos_line; valid_line])
                                 empty_window) = []
  /\ (exists v, parse_native_line bad_qual_line = Append v
                /\ V.raw_info v = bad_qual_line).
Proof.
  split; [eexists; vm_compute; reflexivity|].
  split; [vm_compute; reflexivity|].
  split; [vm_compute; reflexivity|].
  split; [vm_compute; reflexivity|].
  eexists. split; vm_compute; reflexivity.
Qed.

(** C3, amended. A data line whose QUAL field is not a float literal is
    not skipped: it gives an entry with [qual] [0.0]. In a file whose data
    lines all have an integer POS field, no line ends the loop: it ends
    normally and every data line gives its entry, in order. *)
Theorem C3_unparsable_qual_kept :
  (forall line p,
      is_data_line line = true ->
      Py.int (col (columns line) 1) = Some p ->
      PyFloat.float (col (columns line) 5) = None ->
      exists v, parse_native_line line = Append v
                /\ V.qual v = Some PyFloat.zero
                /\ V.raw_info v = line)
  /\ (forall lines all,
        (forall line, In line lines -> is_data_line line = true ->
                      Py.int (col (columns line) 1) <> None) ->
        native_loop lines all = ((all ++ flat_map emitted lines)%list, None)
        /\ map V.raw_info (flat_map emitted lines) = List.filter is_data_line lines).
Proof.
  split.
  - intros line p Hdata Hpos Hqual. exists (entry line p).
    rewrite (parse_native_line_data line Hdata), Hpos.
    split; [reflexivity|]. split; [|reflexivity].
    unfold entry. cbn [V.qual]. rewrite Hqual.
    now destruct (negb (col (columns line) 5 =? ".")%string).
  - intros lines all Hpos.
    pose proof (no_raise_int_pos lines Hpos) as Hno.
    split; [now apply native_loop_total | now apply emitted_data_lines].
Qed.

Lemma C3_unparsable_qual_kept_witness :
  (exists v, parse_native_line bad_qual_line = Append v
             /\ V.qual v = Some PyFloat.zero
             /\ V.raw_info v = bad_qual_line)
  /\ native_loop [bad_qual_line; valid_line] []
     = (flat_map emitted [bad_qual_line; valid_line], None).
Proof.
  split.
  - apply (proj1 C3_unparsable_qual_kept bad_qual_line 300); vm_compute; reflexivity.
  - apply (proj2 C3_unparsable_qual_kept [bad_qual_line; valid_line] []).
    intros line [<-|[<-|[]]] _; vm_compute; discriminate.
Defined.

(** C4, as it stands, fails: for the line with a missing ID and a missing
    QUAL, the [pysam] path stores [None] for both, the native path the text
    ["."] and the float [0.0]; the two entries are not equal. *)
Lemma C4_paths_differ_on_absent :
  exists v,
    parse_native_line sentinel_line = Append v
    /\ V.id v = Some "."
    /\ V.id (variant_of_rec sentinel_rec) = None
    /\ V.qual v = Some PyFloat.zero
    /\ V.qual (variant_of_rec sentinel_rec) = None
    /\ v <> variant_of_rec sentinel_rec.
Proof.
  eexists. split; [vm_compute; reflexivity|].
  repeat split; try (vm_compute; reflexivity).
  intros H. apply (f_equal V.id) in H. vm_compute in H. discriminate H.
Qed.

(** C4, amended. Both paths fill the entry from the same places, [chrom],
    [pos] and [ref] unchanged, but they do not store an absent ID or QUAL
    alike. The [pysam] path stores [rec.id] and [rec.qual] as they are, so
    [None] when absent; the native path always stores a string for [id], the
    text of the ID column, and always a float for [qual], [0.0] when the
    column is ["."]. An entry of the [pysam] path with an absent ID or QUAL
    is therefore never an entry of the native path. The table shows ["."]
    for both forms of an absent ID and of an absent QUAL. *)
Theorem C4_absent_values_differ :
  (forall rec,
      V.chrom (variant_of_rec rec) = Rec.chrom rec
      /\ V.pos (variant_of_rec rec) = Rec.pos rec
      /\ V.id (variant_of_rec rec) = Rec.id rec
      /\ V.ref (variant_of_rec rec) = Rec.ref rec
      /\ V.qual (variant_of_rec rec) = Rec.qual rec)
  /\ (forall line v,
        parse_native_line line = Append v ->
        V.chrom v = col (columns line) 0
        /\ Py.int (col (columns line) 1) = Some (V.pos v)
        /\ V.id v = Some (col (columns line) 2)
        /\ V.ref v = col (columns line) 3
        /\ V.alt v = col (columns line) 4
        /\ (exists q, V.qual v = Some q)
        /\ (col (columns line) 5 = "." -> V.qual v = Some PyFloat.zero)
        /\ V.filter v = col (columns line) 6
        /\ V.info v = col (columns line) 7)
  /\ (forall rec line,
        Rec.id rec = None \/ Rec.qual rec = None ->
        parse_native_line line <> Append (variant_of_rec rec))
  /\ (forall v v',
        V.id v = None -> V.id v' = Some "." ->
        data v 2 = Some "." /\ data v' 2 = Some ".")
  /\ (forall v v',
        V.qual v = None -> V.qual v' = Some PyFloat.zero ->
        data v 5 = Some "." /\ data v' 5 = Some ".").
Proof.
  split; [intros rec; repeat split|].
  split; [|split; [|split]].
  - intros line v Hv. apply parse_native_line_Append in Hv as [_ [p [Hp ->]]].
    unfold entry. cbn.
    repeat split; try reflexivity; try exact Hp.
    + eexists. reflexivity.
    + intros ->. reflexivity.
  - intros rec line Habsent Hv.
    apply parse_native_line_Append in Hv as [_ [p [_ Hv]]].
    destruct Habsent as [Hid | Hq].
    + apply (f_equal V.id) in Hv. cbn in Hv. rewrite Hid in Hv. discriminate.
    + apply (f_equal V.qual) in Hv. cbn in Hv. rewrite Hq in Hv. discriminate.
  - intros v v' H H'. unfold data. simpl. now rewrite H, H'.
  - intros v v' H H'. unfold data. simpl. now rewrite H, H'.
Qed.

Lemma C4_absent_values_differ_witness :
  parse_native_line sentinel_line <> Append (variant_of_rec sentinel_rec)
  /\ V.id (entry sentinel_line 100) = Some "."
  /\ V.qual (entry sentinel_line 100) = Some PyFloat.zero
  /\ (data (variant_of_rec sentinel_rec) 2 = Some "."
      /\ data (entry sentinel_line 100) 2 = Some ".")
  /\ (data (variant_of_rec sentinel_rec) 5 = Some "."
      /\ data (entry sentinel_line 100) 5 = Some ".").
Proof.
  assert (parse_native_line sentinel_line = Append (entry sentinel_line 100)) as Hp
    by (vm_compute; reflexivity).
  destruct (proj1 (proj2 C4_absent_values_differ) sentinel_line
              (entry sentinel_line 100) Hp)
    as [_ [_ [Hid [_ [_ [_ [Hq _]]]]]]].
  split; [|split; [|split; [|split]]].
  - apply (proj1 (proj2 (proj2 C4_absent_values_differ)) sentinel_rec sentinel_line).
    left. reflexivity.
  - rewrite Hid. vm_compute. reflexivity.
  - apply Hq. vm_compute. reflexivity.
  - apply (proj1 (proj2 (proj2 (proj2 C4_absent_values_differ)))
             (variant_of_rec sentinel_rec) (entry sentinel_line 100));
      vm_compute; reflexivity.
  - apply (proj2 (proj2 (proj2 (proj2 C4_absent_values_differ)))
             (variant_of_rec sentinel_rec) (entry sentinel_line 100));
      vm_compute; reflexivity.
Defined.



(** C6. The native parser appends the entries of the lines in the order of
    the lines, one entry for every line that gives one, without dropping
    repeated lines and without sorting: what [all_variants] holds after the
    loop are the entries of the lines read, each carrying its own line; they
    are the entries of all lines when the loop ends normally. The [pysam]
    path appends one entry per record, in order. The filtered list is a
    subsequence of the list it filters, for any criteria; so it is after a
    load. *)
Theorem C6_order_preserved :
  (forall lines,
      fst (native_loop lines []) = flat_map emitted (firstn (consumed lines) lines)
      /\ Subsequence (map V.raw_info (fst (native_loop lines []))) lines
      /\ (snd (native_loop lines []) = None ->
          fst (native_loop lines []) = flat_map emitted lines
          /\ map V.raw_info (fst (native_loop lines []))
             = List.filter is_data_line lines))
  /\ (forall recs, pysam_loop recs [] = map variant_of_rec recs)
  /\ (forall query passOnly (records : list V.t),
        Subsequence (visible query passOnly records) records)
  /\ (forall w self lines,
        chosen_path w <> "" ->
        HAS_PYSAM w = false ->
        (if Py.endswith (chosen_path w) ".gz" then gzip_open w else open_text w)
          (chosen_path w) = Stream lines None ->
        snd (native_loop lines []) = None ->
        map V.raw_info (all_variants (load_vcf w self)) = List.filter is_data_line lines
        /\ Subsequence (filtered_variants (load_vcf w self))
                       (all_variants (load_vcf w self))).
Proof.
  split; [|split; [|split]].
  - intros lines. split; [apply native_loop_consumed|]. split.
    + rewrite native_loop_consumed, flat_map_emitted_raw.
      eapply Subsequence_trans; [apply Subsequence_filter | apply Subsequence_firstn].
    + intros Hok. rewrite native_loop_consumed, (native_loop_finished lines Hok).
      rewrite firstn_all. split; [reflexivity|].
      apply emitted_data_lines. now apply native_loop_no_raise.
  - intros recs. now rewrite pysam_loop_map.
  - intros. rewrite visible_filter. apply Subsequence_filter.
  - intros w self lines Hpath Hpysam Hopen Hok.
    destruct (load_vcf_native_ok w self lines Hpath Hpysam Hopen Hok) as [-> [-> _]].
    split.
    + apply emitted_data_lines. now apply native_loop_no_raise.
    + rewrite visible_filter. apply Subsequence_filter.
Qed.

Lemma C6_order_preserved_witness :
  (fst (native_loop [valid_line; sentinel_line; valid_line] [])
   = flat_map emitted [valid_line; sentinel_line; valid_line]
   /\ map V.raw_info (fst (native_loop [valid_line; sentinel_line; valid_line] []))
      = [valid_line; sentinel_line; valid_line])
  /\ map V.raw_info
       (all_variants
          (load_vcf (text_file_world "a.vcf" [valid_line; short_line; valid_line])
                    empty_window))
     = [valid_line; valid_line].
Proof.
  split.
  - destruct (proj2 (proj2 (proj1 C6_order_preserved
                              [valid_line; sentinel_line; valid_line])))
      as [H1 H2].
    + vm_compute. reflexivity.
    + split; [exact H1|]. rewrite H2. vm_compute. reflexivity.
  - destruct (proj2 (proj2 (proj2 C6_order_preserved))
                (text_file_world "a.vcf" [valid_line; short_line; valid_line])
                empty_window [valid_line; short_line; valid_line])
      as [H _].
    + discriminate.
    + reflexivity.
    + reflexivity.
    + vm_compute. reflexivity.
    + rewrite H. vm_compute. reflexivity.
Defined.

(** C7. A line with fewer than eight tab-separated fields adds no entry and
    raises nothing: the loop goes on as if the line were not there. A file
    of one valid line of eight columns and one line of three columns gives
    exactly one entry, whichever comes first. *)
Theorem C7_short_line_skipped :
  (forall line,
      (List.length (fields line) < 8)%nat -> parse_native_line line = Continue)
  /\ (forall line before after all,
        (List.length (fields line) < 8)%nat ->
        native_loop (before ++ line :: after) all = native_loop (before ++ after) all)
  /\ (exists v, native_loop [valid_line; short_line] [] = ([v], None)
                /\ V.raw_info v = valid_line)
  /\ (exists v, native_loop [short_line; valid_line] [] = ([v], None)
                /\ V.raw_info v = valid_line).
Proof.
  assert (forall line,
             (List.length (fields line) < 8)%nat -> parse_native_line line = Continue)
    as Hskip.
  { intros line Hlen. apply parse_native_line_not_data. unfold is_data_line, columns.
    pose proof (split_strip_length TAB line) as Hle. unfold fields in Hlen.
    destruct (Z.leb_spec 8 (Z.of_nat (List.length (Py.split TAB (Py.strip line)))));
      [lia | apply andb_false_r]. }
  split; [exact Hskip|]. split; [|split].
  - intros line before after all Hlen. revert all.
    induction before as [|l before IH]; intros all; simpl.
    + now rewrite (Hskip line Hlen).
    + destruct (parse_native_line l); [apply IH | apply IH | reflexivity].
  - eexists. split; vm_compute; reflexivity.
  - eexists. split; vm_compute; reflexivity.
Qed.

Lemma C7_short_line_skipped_witness :
  parse_native_line short_line = Continue
  /\ native_loop ([valid_line] ++ short_line :: [valid_line]) []
     = native_loop ([valid_line] ++ [valid_line]) [].
Proof.
  split.
  - apply (proj1 C7_short_line_skipped short_line). vm_compute. lia.
  - apply (proj1 (proj2 C7_short_line_skipped) short_line [valid_line] [valid_line] []).
    vm_compute. lia.
Defined.

(** C8. Filtering twice with the same criteria gives what filtering once
    gives. *)
Theorem C8_filter_idempotent :
  forall query passOnly records,
    visible query passOnly (visible query passOnly records)
    = visible query passOnly records.
Proof.
  intros. rewrite !visible_filter. apply filter_twice.
Qed.




(** C10. On the [pysam] path a record without ID is stored with [id] equal
    to [None]; the search reads it as the text ["none"], so a query that is a
    substring of ["none"] matches that record and keeps it visible, unless
    the check box is on and its filter is not ["PASS"]. *)
Theorem C10_none_id_matches :
  forall (recs : list Rec.t) (rec : Rec.t) (query : string),
    In rec recs ->
    Rec.id rec = None ->
    Py.contains query "none" = true ->
    V.id (variant_of_rec rec) = None
    /\ Py.lower (str_id (V.id (variant_of_rec rec))) = "none"
    /\ searched (Py.lower query) (variant_of_rec rec) = true
    /\ In (variant_of_rec rec) (visible query false (pysam_loop recs []))
    /\ (V.filter (variant_of_rec rec) = "PASS" ->
        In (variant_of_rec rec) (visible query true (pysam_loop recs []))).
Proof.
  intros recs rec query Hin Hid Hsub.
  assert (V.id (variant_of_rec rec) = None) as Hnone by exact Hid.
  assert (searched (Py.lower query) (variant_of_rec rec) = true) as Hs.
  { unfold searched. rewrite Hnone.
    apply contains_lower in Hsub. change (Py.lower "none") with "none" in Hsub.
    change (Py.lower (str_id None)) with "none". rewrite Hsub.
    now rewrite orb_true_r. }
  assert (In (variant_of_rec rec) (pysam_loop recs [])) as Hall
    by (rewrite pysam_loop_map; simpl; now apply in_map).
  split; [exact Hnone|]. split; [now rewrite Hnone|]. split; [exact Hs|]. split.
  - rewrite visible_filter. apply filter_In. split; [exact Hall|].
    unfold kept. rewrite Hs. simpl. now rewrite andb_false_r.
  - intros Hpass. rewrite visible_filter. apply filter_In. split; [exact Hall|].
    unfold kept. rewrite Hs, Hpass. simpl. now rewrite andb_false_r.
Qed.

Lemma C10_none_id_matches_witness :
  In (variant_of_rec sentinel_rec) (visible "non" false (pysam_loop [sentinel_rec] []))
  /\ In (variant_of_rec sentinel_rec) (visible "none" true (pysam_loop [sentinel_rec] [])).
Proof.
  split.
  - destruct (C10_none_id_matches [sentinel_rec] sentinel_rec "non")
      as [_ [_ [_ [H _]]]].
    + simpl. left. reflexivity.
    + reflexivity.
    + reflexivity.
    + exact H.
  - destruct (C10_none_id_matches [sentinel_rec] sentinel_rec "none")
      as [_ [_ [_ [_ H]]]].
    + simpl. left. reflexivity.
    + reflexivity.
    + reflexivity.
    + apply H. reflexivity.
Defined.

(** * Further properties *)

(** ** Splitting and joining *)

Section SplitJoinFacts.

Variable sep : ascii.

Lemma split_not_nil (s : string) : Py.split sep s <> [].
Proof.
  intros H. pose proof (split_length sep s) as L. rewrite H in L. discriminate L.
Qed.

Lemma join_cons (x : string) (l : list string) :
  l <> [] ->
  Py.join (String sep "") (x :: l) = x ++ String sep (Py.join (String sep "") l).
Proof.
  intros Hl. destruct l as [|y l]; [contradiction|]. reflexivity.
Qed.

(** Joining the fields of a split gives the string back. *)
Lemma join_split (s : string) : Py.join (String sep "") (Py.split sep s) = s.
Proof.
  induction s as [|c r IH]; [reflexivity|].
  cbn [Py.split]. destruct (Ascii.eqb c sep) eqn:E.
  - apply Ascii.eqb_eq in E. subst c.
    rewrite join_cons by apply split_not_nil. now rewrite IH.
  - destruct (Py.split sep r) as [|h t] eqn:Hs; [now apply split_not_nil in Hs|].
    destruct t as [|h' t].
    + simpl in *. now rewrite IH.
    + rewrite join_cons by discriminate. rewrite join_cons in IH by discriminate.
      rewrite <- IH. reflexivity.
Qed.

(** No field of a split holds the separator. *)
Lemma split_fields_clean (s : string) :
  Forall (fun f => occurrences sep f = O) (Py.split sep s).
Proof.
  induction s as [|c r IH]; [repeat constructor|].
  cbn [Py.split]. destruct (Ascii.eqb c sep) eqn:E.
  - constructor; [reflexivity | exact IH].
  - destruct (Py.split sep r) as [|h t]; [repeat constructor; simpl; now rewrite E|].
    inversion IH; subst. constructor; [simpl; now rewrite E | assumption].
Qed.

Lemma split_clean (s : string) :
  occurrences sep s = O -> Py.split sep s = [s].
Proof.
  induction s as [|c r IH]; [reflexivity|].
  simpl. destruct (Ascii.eqb c sep); [discriminate|].
  intros H. now rewrite (IH H).
Qed.

Lemma split_app_sep (x r : string) :
  occurrences sep x = O ->
  Py.split sep (x ++ String sep r) = x :: Py.split sep r.
Proof.
  induction x as [|c x IH]; intros H.
  - simpl. now rewrite Ascii.eqb_refl.
  - simpl in *. destruct (Ascii.eqb c sep); [discriminate|].
    now rewrite (IH H).
Qed.

(** Splitting a join of fields without the separator gives the fields
    back. *)
Lemma split_join (l : list string) :
  l <> [] ->
  Forall (fun f => occurrences sep f = O) l ->
  Py.split sep (Py.join (String sep "") l) = l.
Proof.
  induction l as [|x l IH]; [contradiction|].
  intros _ H. inversion H as [|? ? Hx Hl]; subst.
  destruct l as [|y l].
  - simpl. now apply split_clean.
  - rewrite join_cons by discriminate.
    rewrite (split_app_sep _ _ Hx). f_equal. apply IH; [discriminate | exact Hl].
Qed.

Lemma occurrences_app (a b : string) :
  occurrences sep (a ++ b) = (occurrences sep a + occurrences sep b)%nat.
Proof.
  induction a as [|c a IH]; [reflexivity|].
  simpl. destruct (Ascii.eqb c sep); simpl; now rewrite IH.
Qed.

End SplitJoinFacts.

Lemma nth_Forall {A : Type} (P : A -> Prop) (l : list A) (d : A) (i : nat) :
  Forall P l -> P d -> P (nth i l d).
Proof.
  intros Hl Hd. revert i. induction Hl as [|x l Hx Hl IH]; intros [|i]; simpl; auto.
Qed.

(** X1. The columns of a line, joined by tabs, are the stripped line, and
    no field the native parser stores holds a tab. *)
Theorem X1_native_fields_tab_free :
  forall line v,
    parse_native_line line = Append v ->
    Py.join (String TAB "") (columns line) = Py.strip line
    /\ occurrences TAB (V.chrom v) = O
    /\ (exists s, V.id v = Some s /\ occurrences TAB s = O)
    /\ occurrences TAB (V.ref v) = O
    /\ occurrences TAB (V.alt v) = O
    /\ occurrences TAB (V.filter v) = O
    /\ occurrences TAB (V.info v) = O.
Proof.
  intros line v Hv. apply parse_native_line_Append in Hv as [_ [p [_ ->]]].
  assert (forall i, occurrences TAB (col (columns line) i) = O) as Hcol.
  { intros i. unfold col, columns.
    apply (nth_Forall (fun f => occurrences TAB f = O));
      [apply split_fields_clean | reflexivity]. }
  split; [apply join_split|]. unfold entry. cbn.
  repeat split; try apply Hcol.
  eexists. split; [reflexivity | apply Hcol].
Qed.

Lemma X1_native_fields_tab_free_witness :
  Py.join (String TAB "") (columns valid_line) = Py.strip valid_line
  /\ occurrences TAB (V.info (entry valid_line 2500)) = O.
Proof.
  destruct (X1_native_fields_tab_free valid_line (entry valid_line 2500))
    as [H [_ [_ [_ [_ [_ H']]]]]].
  - vm_compute. reflexivity.
  - split; [exact H | exact H'].
Defined.

(** X2. Only the data lines of a file count: with the header lines and the
    lines of fewer than eight columns taken out, the loop gives the same
    entries and ends the same way. *)
Theorem X2_only_data_lines_count :
  forall lines all,
    native_loop lines all = native_loop (List.filter is_data_line lines) all.
Proof.
  induction lines as [|line rest IH]; intros all; [reflexivity|].
  cbn [List.filter native_loop]. destruct (is_data_line line) eqn:Hd.
  - cbn [native_loop]. destruct (parse_native_line line); [apply IH | apply IH | reflexivity].
  - rewrite (parse_native_line_not_data line Hd). apply IH.
Qed.

(** ** Decimal text of integers *)

Section DecimalFacts.

Lemma digit_char_digit (d : Z) :
  0 <= d < 10 ->
  Py.isdigit (Py.digit_char d) = true /\ Py.code (Py.digit_char d) - 48 = d.
Proof.
  intros H.
  assert (d = 0 \/ d = 1 \/ d = 2 \/ d = 3 \/ d = 4 \/ d = 5 \/ d = 6 \/ d = 7
          \/ d = 8 \/ d = 9) as Hd by lia.
  repeat (destruct Hd as [-> | Hd]; [split; reflexivity|]). subst. split; reflexivity.
Qed.

Lemma isdigit_range (c : ascii) : Py.isdigit c = true -> 48 <= Py.code c <= 57.
Proof.
  unfold Py.isdigit, Py.between. intros H. apply andb_prop in H as [H1 H2].
  apply Z.leb_le in H1, H2. lia.
Qed.

Lemma digit_not_space (c : ascii) :
  Py.isdigit c = true -> Py.numeric_space c = false.
Proof.
  intros H. apply isdigit_range in H. unfold Py.numeric_space, Py.between.
  destruct (Z.leb_spec 9 (Py.code c)), (Z.leb_spec (Py.code c) 13),
    (Z.eqb_spec (Py.code c) 32), (Z.eqb_spec (Py.code c) 133),
    (Z.eqb_spec (Py.code c) 160); simpl; try reflexivity; lia.
Qed.

Lemma digit_not_sign (c : ascii) :
  Py.isdigit c = true -> Ascii.eqb c "-" = false /\ Ascii.eqb c "+" = false.
Proof.
  intros H. apply isdigit_range in H.
  split; apply Ascii.eqb_neq; intros ->.
  - change (Py.code "-") with 45 in H. lia.
  - change (Py.code "+") with 43 in H. lia.
Qed.

Lemma digits_value_acc (s : string) (a : Z) :
  digits_value s a = a * 10 ^ Z.of_nat (String.length s) + digits_value s 0.
Proof.
  revert a. induction s as [|c r IH]; intros a.
  - simpl. lia.
  - cbn [digits_value String.length]. rewrite (IH (10 * a + _)), (IH (10 * 0 + _)).
    rewrite Nat2Z.inj_succ, Z.pow_succ_r by lia. ring.
Qed.

Lemma digits_of_all_digits (fuel : nat) (n : Z) (acc : string) :
  all_digits acc = true -> all_digits (Py.digits_of fuel n acc) = true.
Proof.
  revert n acc. induction fuel as [|f IH]; intros n acc Hacc; [exact Hacc|].
  cbn [Py.digits_of].
  assert (all_digits (String (Py.digit_char (n mod 10)) acc) = true) as H.
  { cbn [all_digits]. rewrite Hacc.
    destruct (digit_char_digit (n mod 10)) as [-> _]; [|reflexivity].
    apply Z.mod_pos_bound. lia. }
  destruct (n / 10 =? 0); [exact H | now apply IH].
Qed.

Lemma digits_of_not_empty (fuel : nat) (n : Z) (acc : string) :
  acc <> "" -> Py.digits_of fuel n acc <> "".
Proof.
  revert n acc. induction fuel as [|f IH]; intros n acc Hacc; [exact Hacc|].
  cbn [Py.digits_of]. destruct (n / 10 =? 0); [discriminate | apply IH; discriminate].
Qed.

(** With enough fuel the digits written are those of the number. *)
Lemma digits_of_value (fuel : nat) (n : Z) (acc : string) :
  0 <= n < 10 ^ Z.of_nat fuel ->
  digits_value (Py.digits_of fuel n acc) 0
  = n * 10 ^ Z.of_nat (String.length acc) + digits_value acc 0.
Proof.
  revert n acc. induction fuel as [|f IH]; intros n acc Hn.
  - simpl in *. assert (n = 0) as -> by lia. lia.
  - cbn [Py.digits_of].
    rewrite Nat2Z.inj_succ, Z.pow_succ_r in Hn by lia.
    pose proof (Z.mod_pos_bound n 10 ltac:(lia)) as Hm.
    pose proof (Z.div_mod n 10 ltac:(lia)) as Hdm.
    assert (digits_value (String (Py.digit_char (n mod 10)) acc) 0
            = (n mod 10) * 10 ^ Z.of_nat (String.length acc) + digits_value acc 0) as Hd.
    { cbn [digits_value]. destruct (digit_char_digit (n mod 10) Hm) as [_ ->].
      rewrite digits_value_acc.
      replace (10 * 0 + n mod 10) with (n mod 10) by lia. reflexivity. }
    destruct (Z.eqb_spec (n / 10) 0) as [Hz|Hz].
    + rewrite Hd. replace (n mod 10) with n by lia. reflexivity.
    + rewrite IH.
      * rewrite Hd. cbn [String.length]. rewrite Nat2Z.inj_succ, Z.pow_succ_r by lia.
        set (P := 10 ^ Z.of_nat (String.length acc)).
        replace (n * P) with ((10 * (n / 10) + n mod 10) * P) by (now rewrite <- Hdm).
        ring.
      * split; [apply Z.div_pos; lia | apply Z.div_lt_upper_bound; lia].
Qed.

Lemma str_nat_fuel (n : Z) :
  0 <= n -> n < 10 ^ Z.of_nat (S (Z.to_nat (Z.log2 n))).
Proof.
  intros Hn. rewrite Nat2Z.inj_succ, Z2Nat.id by apply Z.log2_nonneg.
  destruct (Z.eq_dec n 0) as [->|Hne]; [reflexivity|].
  pose proof (Z.log2_spec n ltac:(lia)) as [_ H].
  pose proof (Z.log2_nonneg n) as Hl.
  assert (2 ^ Z.succ (Z.log2 n) <= 10 ^ Z.succ (Z.log2 n))
    by (apply Z.pow_le_mono_l; lia).
  lia.
Qed.

Lemma str_nat_digits (n : Z) :
  0 <= n ->
  all_digits (Py.str_nat n) = true
  /\ Py.str_nat n <> ""
  /\ digits_value (Py.str_nat n) 0 = n.
Proof.
  intros Hn. unfold Py.str_nat. split; [now apply digits_of_all_digits|]. split.
  - cbn [Py.digits_of]. destruct (n / 10 =? 0); [discriminate|].
    apply digits_of_not_empty. discriminate.
  - rewrite digits_of_value by (split; [exact Hn | now apply str_nat_fuel]).
    simpl. lia.
Qed.

Lemma digits_tail_all_digits (s : string) :
  all_digits s = true ->
  exists ds, Py.digits_tail s = (ds, "")
             /\ List.length ds = String.length s
             /\ forall a, fold_left (fun a d => 10 * a + d) ds a = digits_value s a.
Proof.
  induction s as [|c r IH]; intros H.
  - exists []. repeat split.
  - cbn [all_digits] in H. apply andb_prop in H as [Hc Hr].
    destruct (IH Hr) as [ds [Ht [Hl Hv]]].
    exists (Py.code c - 48 :: ds). split; [|split].
    + cbn [Py.digits_tail]. now rewrite Hc, Ht.
    + simpl. now rewrite Hl.
    + intros a. cbn [fold_left digits_value]. apply Hv.
Qed.

Lemma digitpart_all_digits (s : string) :
  s <> "" -> all_digits s = true ->
  exists ds, Py.digitpart s = Some (ds, "")
             /\ List.length ds = String.length s
             /\ Py.value_of ds = digits_value s 0.
Proof.
  destruct s as [|c r]; [contradiction|]. intros _ H.
  cbn [all_digits] in H. apply andb_prop in H as [Hc Hr].
  destruct (digits_tail_all_digits r Hr) as [ds [Ht [Hl Hv]]].
  exists (Py.code c - 48 :: ds). split; [|split].
  - unfold Py.digitpart. now rewrite Hc, Ht.
  - simpl. now rewrite Hl.
  - unfold Py.value_of. cbn [fold_left digits_value]. apply Hv.
Qed.

(** A number below [10^k] is written with at most [k] digits. *)
Lemma digits_of_length (fuel : nat) (n k : Z) (acc : string) :
  1 <= k -> 0 <= n < 10 ^ k ->
  Z.of_nat (String.length (Py.digits_of fuel n acc))
  <= k + Z.of_nat (String.length acc).
Proof.
  revert n k acc. induction fuel as [|f IH]; intros n k acc Hk Hn.
  - simpl. lia.
  - cbn [Py.digits_of]. destruct (Z.eqb_spec (n / 10) 0) as [Hz|Hz].
    + cbn [String.length]. lia.
    + assert (10 <= n) as Hten.
      { destruct (Z.lt_ge_cases n 10) as [Hlt|Hge]; [|exact Hge].
        exfalso. apply Hz. apply Z.div_small. lia. }
      assert (2 <= k) as Hk2.
      { destruct (Z.eq_dec k 1) as [->|Hne]; [|lia].
        change (10 ^ 1) with 10 in Hn. lia. }
      replace k with (Z.succ (k - 1)) in Hn by lia.
      rewrite Z.pow_succ_r in Hn by lia.
      eapply Z.le_trans.
      * apply (IH (n / 10) (k - 1)); [lia|].
        split; [apply Z.div_pos; lia | apply Z.div_lt_upper_bound; lia].
      * cbn [String.length]. lia.
Qed.

Lemma str_nat_length (n k : Z) :
  1 <= k -> 0 <= n < 10 ^ k -> Z.of_nat (String.length (Py.str_nat n)) <= k.
Proof.
  intros Hk Hn. unfold Py.str_nat.
  pose proof (digits_of_length (S (Z.to_nat (Z.log2 n))) n k "" Hk Hn) as H.
  change (Z.of_nat (String.length "")) with 0 in H. lia.
Qed.

Lemma all_digits_no_space (s : string) :
  all_digits s = true -> none_of Py.numeric_space s = true.
Proof.
  induction s as [|c r IH]; [reflexivity|].
  cbn [all_digits none_of]. intros H. apply andb_prop in H as [Hc Hr].
  now rewrite (digit_not_space c Hc), IH.
Qed.

Lemma rstrip_by_none_of (p : ascii -> bool) (s : string) :
  none_of p s = true -> Py.rstrip_by p s = s.
Proof.
  induction s as [|c r IH]; [reflexivity|].
  cbn [none_of Py.rstrip_by]. intros H. apply andb_prop in H as [Hc Hr].
  rewrite (IH Hr). destruct r; [|reflexivity].
  apply negb_true_iff in Hc. now rewrite Hc.
Qed.

Lemma lstrip_by_none_of (p : ascii -> bool) (s : string) :
  none_of p s = true -> Py.lstrip_by p s = s.
Proof.
  destruct s as [|c r]; [reflexivity|].
  cbn [none_of Py.lstrip_by]. intros H. apply andb_prop in H as [Hc _].
  apply negb_true_iff in Hc. now rewrite Hc.
Qed.

(** [int(str(n))] is [n], for the integers of at most [MAX_STR_DIGITS]
    digits. *)
Lemma int_str_int (n : Z) :
  Z.abs n < 10 ^ Py.MAX_STR_DIGITS -> Py.int (Py.str_int n) = Some n.
Proof.
  intros Hbound.
  assert (1 <= Py.MAX_STR_DIGITS) as Hk by (unfold Py.MAX_STR_DIGITS; lia).
  unfold Py.str_int. destruct (Z.ltb_spec n 0) as [Hneg|Hpos].
  - destruct (str_nat_digits (- n) ltac:(lia)) as [Hd [Hne Hv]].
    destruct (digitpart_all_digits _ Hne Hd) as [ds [Hp [Hl Hds]]].
    pose proof (str_nat_length (- n) Py.MAX_STR_DIGITS Hk ltac:(lia)) as Hlen.
    assert (none_of Py.numeric_space (String "-" (Py.str_nat (- n))) = true) as Hs
      by (cbn [none_of]; now rewrite all_digits_no_space).
    unfold Py.int, Py.strip_numeric.
    rewrite (lstrip_by_none_of _ _ Hs), (rstrip_by_none_of _ _ Hs).
    cbn [Py.sign_of]. rewrite Ascii.eqb_refl, Hp, Hl.
    destruct (Z.ltb_spec Py.MAX_STR_DIGITS (Z.of_nat (String.length (Py.str_nat (- n)))));
      [lia|].
    rewrite Hds, Hv. f_equal. lia.
  - destruct (str_nat_digits n Hpos) as [Hd [Hne Hv]].
    destruct (digitpart_all_digits _ Hne Hd) as [ds [Hp [Hl Hds]]].
    pose proof (str_nat_length n Py.MAX_STR_DIGITS Hk ltac:(lia)) as Hlen.
    pose proof (all_digits_no_space _ Hd) as Hs.
    unfold Py.int, Py.strip_numeric.
    rewrite (lstrip_by_none_of _ _ Hs), (rstrip_by_none_of _ _ Hs).
    destruct (Py.str_nat n) as [|c r] eqn:E; [contradiction|].
    cbn [all_digits] in Hd. apply andb_prop in Hd as [Hc _].
    destruct (digit_not_sign c Hc) as [Hm Hp'].
    cbn [Py.sign_of]. rewrite Hm, Hp', Hp, Hl.
    destruct (Z.ltb_spec Py.MAX_STR_DIGITS (Z.of_nat (String.length (String c r))));
      [lia|].
    rewrite Hds, Hv. reflexivity.
Qed.

End DecimalFacts.

(** X3. A data line whose POS column is the decimal text of an integer of
    at most 4300 digits is stored with that integer, and the table shows the
    line's own text in the columns CHROM, POS, REF, ALT, FILTER and INFO, and
    in the column ID when the ID is not empty. *)
Theorem X3_parse_then_display :
  forall line p,
    is_data_line line = true ->
    Z.abs p < 10 ^ Py.MAX_STR_DIGITS ->
    col (columns line) 1 = Py.str_int p ->
    parse_native_line line = Append (entry line p)
    /\ V.pos (entry line p) = p
    /\ data (entry line p) 0 = Some (col (columns line) 0)
    /\ data (entry line p) 1 = Some (col (columns line) 1)
    /\ (col (columns line) 2 <> "" -> data (entry line p) 2 = Some (col (columns line) 2))
    /\ data (entry line p) 3 = Some (col (columns line) 3)
    /\ data (entry line p) 4 = Some (col (columns line) 4)
    /\ data (entry line p) 6 = Some (col (columns line) 6)
    /\ data (entry line p) 7 = Some (col (columns line) 7).
Proof.
  intros line p Hd Hbound Hpos.
  split.
  - rewrite (parse_native_line_data line Hd), Hpos, (int_str_int p Hbound). reflexivity.
  - unfold data, entry. cbn. rewrite Hpos.
    repeat split. intros Hne. destruct (col (columns line) 2); [contradiction | reflexivity].
Qed.

Lemma X3_parse_then_display_witness :
  parse_native_line valid_line = Append (entry valid_line 2500)
  /\ data (entry valid_line 2500) 1 = Some "2500".
Proof.
  destruct (X3_parse_then_display valid_line 2500) as [H [_ [_ [H1 _]]]].
  - vm_compute. reflexivity.
  - vm_compute. reflexivity.
  - vm_compute. reflexivity.
  - split; [exact H|]. rewrite H1. vm_compute. reflexivity.
Defined.

(** ** More on the filter *)

Section FilterAlgebra.

Lemma filter_commute {A : Type} (f g : A -> bool) (l : list A) :
  List.filter f (List.filter g l) = List.filter g (List.filter f l).
Proof.
  induction l as [|x l IH]; [reflexivity|].
  simpl. destruct (f x) eqn:F, (g x) eqn:G; simpl; rewrite ?F, ?G, IH; reflexivity.
Qed.

Lemma filter_andb {A : Type} (f g : A -> bool) (l : list A) :
  List.filter (fun x => f x && g x) l = List.filter f (List.filter g l).
Proof.
  induction l as [|x l IH]; [reflexivity|].
  simpl. destruct (f x) eqn:F, (g x) eqn:G; simpl; rewrite ?F, IH; reflexivity.
Qed.

Lemma filter_all {A : Type} (f : A -> bool) (l : list A) :
  (forall x, f x = true) -> List.filter f l = l.
Proof.
  intros H. induction l as [|x l IH]; [reflexivity|]. simpl. now rewrite H, IH.
Qed.

End FilterAlgebra.

(** X4. With an empty search text and the check box off, every record is
    visible, in order: the filter is the identity. *)
Theorem X4_empty_criteria_show_all :
  forall records, visible "" false records = records.
Proof.
  intros records. rewrite visible_filter. apply filter_all. reflexivity.
Qed.

(** X5. Two filters applied one after the other give the same list in
    either order, and the check box can be applied after the search: the
    list for a query with the box on is the list for that query with the box
    off, filtered again with an empty query and the box on. *)
Theorem X5_filters_compose :
  (forall q p q' p' records,
      visible q p (visible q' p' records) = visible q' p' (visible q p records))
  /\ (forall q records,
        visible q true records = visible "" true (visible q false records)).
Proof.
  split.
  - intros. rewrite !visible_filter. apply filter_commute.
  - intros. rewrite !visible_filter, <- filter_andb. apply filter_ext_eq.
    intros v. unfold kept. simpl.
    destruct (negb (negb (V.filter v =? "PASS")%string)); reflexivity.
Qed.

(** ** The [pysam] path *)

Section PysamFacts.

Lemma join_two_has_sep (sep : ascii) (a b : string) (l : list string) :
  (1 <= occurrences sep (Py.join (String sep "") (a :: b :: l)))%nat.
Proof.
  rewrite join_cons by discriminate. rewrite occurrences_app.
  simpl. rewrite Ascii.eqb_refl. lia.
Qed.

Lemma visible_single (query : string) (passOnly : bool) (v : V.t) :
  visible query passOnly [v] = if includes query passOnly v then [v] else [].
Proof.
  rewrite visible_filter. cbn [List.filter]. now rewrite kept_includes.
Qed.

Lemma existsb_eqb_In (x : string) (l : list string) :
  existsb (String.eqb x) l = true <-> In x l.
Proof.
  rewrite existsb_exists. split.
  - intros [y [Hin Heq]]. apply String.eqb_eq in Heq. now subst.
  - intros Hin. exists x. split; [exact Hin | apply String.eqb_refl].
Qed.

End PysamFacts.

(** X6. On the [pysam] path the stored filter is ["PASS"] exactly when the
    record has no filter key or has the key ["PASS"]; these are the records
    the check box keeps. *)
Theorem X6_pysam_pass :
  forall rec,
    (V.filter (variant_of_rec rec) = "PASS"
     <-> Rec.filter_keys rec = [] \/ In "PASS" (Rec.filter_keys rec))
    /\ (visible "" true [variant_of_rec rec] = [variant_of_rec rec]
        <-> Rec.filter_keys rec = [] \/ In "PASS" (Rec.filter_keys rec)).
Proof.
  intros rec.
  assert (V.filter (variant_of_rec rec) = "PASS"
          <-> Rec.filter_keys rec = [] \/ In "PASS" (Rec.filter_keys rec)) as Hpass.
  { unfold variant_of_rec. cbn [V.filter].
    destruct (Rec.filter_keys rec) as [|k l] eqn:Hk.
    - split; [now left | reflexivity].
    - destruct (existsb (String.eqb "PASS") (k :: l)) eqn:E.
      + split; [intros _; right; now apply existsb_eqb_In | reflexivity].
      + split.
        * intros Hj. exfalso. destruct l as [|k' l].
          -- simpl in Hj. subst k. simpl in E. discriminate E.
          -- pose proof (join_two_has_sep ";" k k' l) as Hs.
             unfold Py.join in Hj, Hs. rewrite Hj in Hs. simpl in Hs. lia.
        * intros [Hnil | Hin]; [discriminate|].
          apply existsb_eqb_In in Hin. rewrite Hin in E. discriminate. }
  split; [exact Hpass|]. rewrite <- Hpass, visible_single.
  change (includes "" true (variant_of_rec rec))
    with ((V.filter (variant_of_rec rec) =? "PASS")%string && true).
  rewrite andb_true_r.
  destruct (String.eqb_spec (V.filter (variant_of_rec rec)) "PASS") as [He|Hne].
  - split; [intros _; exact He | reflexivity].
  - split; [discriminate | contradiction].
Qed.

Lemma X6_pysam_pass_witness :
  V.filter (variant_of_rec sentinel_rec) = "PASS"
  /\ visible "" true [variant_of_rec sentinel_rec] = [variant_of_rec sentinel_rec].
Proof.
  split.
  - apply (proj1 (X6_pysam_pass sentinel_rec)). right. left. reflexivity.
  - apply (proj2 (X6_pysam_pass sentinel_rec)). right. left. reflexivity.
Defined.

(** X7. On the [pysam] path the ALT text splits on commas back into the
    alleles, when there is an allele and none holds a comma; without
    alleles the ALT text is ["."]. The INFO text splits on semicolons back
    into the items as written, when there is an item and none of them holds
    a semicolon. *)
Theorem X7_pysam_alt_info_split_back :
  (forall rec alts,
      Rec.alts rec = Some alts -> alts <> [] ->
      Forall (fun a => occurrences "," a = O) alts ->
      Py.split "," (V.alt (variant_of_rec rec)) = alts)
  /\ (forall rec,
        Rec.alts rec = None \/ Rec.alts rec = Some [] ->
        V.alt (variant_of_rec rec) = ".")
  /\ (forall rec,
        Rec.info_items rec <> [] ->
        Forall (fun kv => occurrences ";" (info_part kv) = O) (Rec.info_items rec) ->
        Py.split ";" (V.info (variant_of_rec rec)) = map info_part (Rec.info_items rec)).
Proof.
  split; [|split].
  - intros rec alts Ha Hne Hclean. unfold variant_of_rec. cbn [V.alt]. rewrite Ha.
    destruct alts as [|a l]; [contradiction|]. now apply split_join.
  - intros rec [H|H]; unfold variant_of_rec; cbn [V.alt]; now rewrite H.
  - intros rec Hne Hclean. unfold variant_of_rec. cbn [V.info]. apply split_join.
    + destruct (Rec.info_items rec); [contradiction | discriminate].
    + apply Forall_map. exact Hclean.
Qed.

Lemma X7_pysam_alt_info_split_back_witness :
  Py.split "," (V.alt (variant_of_rec sentinel_rec)) = ["G"]
  /\ V.alt (variant_of_rec
              {| Rec.chrom := "chr1"; Rec.pos := 100; Rec.id := None; Rec.ref := "A";
                 Rec.alts := None; Rec.qual := None; Rec.filter_keys := [];
                 Rec.info_items := []; Rec.text := "" |}) = "."
  /\ Py.split ";" (V.info (variant_of_rec sentinel_rec)) = ["DP=10"].
Proof.
  split; [|split].
  - apply (proj1 X7_pysam_alt_info_split_back sentinel_rec ["G"]).
    + reflexivity.
    + discriminate.
    + repeat constructor.
  - apply (proj1 (proj2 X7_pysam_alt_info_split_back)). left. reflexivity.
  - apply (proj2 (proj2 X7_pysam_alt_info_split_back) sentinel_rec).
    + discriminate.
    + repeat constructor.
Defined.

(** ** More on loading *)

Section LoadAlgebra.

(** [load_vcf] with a path chosen: the parse from an empty list, then the
    filter or the error report. *)
Lemma load_vcf_attempt (w : world) (self : MainWindow) :
  chosen_path w <> "" ->
  load_vcf w self =
    match attempt w with
    | (all, None) => loaded_ok self (chosen_path w) all
    | (all, Some e) => loaded_error self all e
    end.
Proof.
  intros Hpath. unfold load_vcf, attempt.
  destruct (chosen_path w) as [|c path] eqn:E; [contradiction|].
  cbn [Py.truthy negb]. destruct (HAS_PYSAM w).
  - unfold parse_with_pysam.
    destruct (VariantFile w (String c path)) as [e|recs [e|]]; reflexivity.
  - unfold parse_native.
    destruct ((if Py.endswith (String c path) ".gz" then gzip_open w else open_text w)
                (String c path)) as [e|lines failure]; [reflexivity|].
    cbn [all_variants set_all_variants set_status].
    destruct (native_loop lines []) as [all [e|]]; [reflexivity|].
    destruct failure as [e|]; reflexivity.
Qed.

Lemma load_vcf_cancelled (w : world) (self : MainWindow) :
  chosen_path w = "" -> load_vcf w self = self.
Proof. intros H. unfold load_vcf. now rewrite H. Qed.

Lemma attempt_native (w : world) (lines : list string) (failure : option exn) :
  HAS_PYSAM w = false ->
  (if Py.endswith (chosen_path w) ".gz" then gzip_open w else open_text w)
    (chosen_path w) = Stream lines failure ->
  attempt w = (fst (native_loop lines []),
               match snd (native_loop lines []) with
               | Some e => Some e
               | None => failure
               end).
Proof. intros Hp Ho. unfold attempt. now rewrite Hp, Ho. Qed.

End LoadAlgebra.

(** X8. Loading is idempotent: a second load in the same surroundings
    leaves the window as the first load left it. In particular the records
    of a file loaded twice are not doubled. *)
Theorem X8_load_idempotent :
  forall w self, load_vcf w (load_vcf w self) = load_vcf w self.
Proof.
  intros w self. destruct (string_dec (chosen_path w) "") as [He|Hne].
  - now rewrite !(load_vcf_cancelled w _ He).
  - rewrite (load_vcf_attempt w self Hne), (load_vcf_attempt w _ Hne).
    destruct (attempt w) as [all [e|]]; reflexivity.
Qed.

(** X9. A load with a path chosen replaces the list of all records: what
    the list holds afterwards does not depend on the window before, whether
    the load succeeds or fails. *)
Theorem X9_load_replaces_records :
  forall w self self',
    chosen_path w <> "" ->
    all_variants (load_vcf w self) = all_variants (load_vcf w self').
Proof.
  intros w self self' Hne.
  rewrite (load_vcf_attempt w self Hne), (load_vcf_attempt w self' Hne).
  destruct (attempt w) as [all [e|]]; reflexivity.
Qed.

Lemma X9_load_replaces_records_witness :
  all_variants (load_vcf (text_file_world "a.vcf" [valid_line]) loaded_window)
  = all_variants (load_vcf (text_file_world "a.vcf" [valid_line]) empty_window).
Proof.
  apply (X9_load_replaces_records (text_file_world "a.vcf" [valid_line])).
  discriminate.
Defined.

(** X10. A load never changes the search text nor the check box, and a
    load that fails or is cancelled never changes the counter. *)
Theorem X10_load_frame :
  forall w self,
    search_input (load_vcf w self) = search_input self
    /\ chk_pass (load_vcf w self) = chk_pass self
    /\ (lbl_status (load_vcf w self) = "Error loading file"
        \/ chosen_path w = "" ->
        lbl_count (load_vcf w self) = lbl_count self).
Proof.
  intros w self. destruct (string_dec (chosen_path w) "") as [He|Hne].
  - rewrite (load_vcf_cancelled w _ He). repeat split.
  - rewrite (load_vcf_attempt w self Hne).
    destruct (attempt w) as [all [e|]]; repeat split.
    intros [H|H]; [discriminate H | contradiction].
Qed.

Lemma X10_load_frame_witness :
  lbl_count (load_vcf missing_file_world loaded_window) = "Variants: 1".
Proof.
  destruct (X10_load_frame missing_file_world loaded_window) as [_ [_ H]].
  rewrite H; [reflexivity|]. left. reflexivity.
Defined.

(** X11. On the native path, when the file opens, the list of all records
    after the load holds the entries of the lines read before the loop ended,
    whether it ended normally or not. When it did not, the table is left as
    it was, but the next change of the search text filters those entries:
    the records of the failed load become visible. *)
Theorem X11_failed_parse_leaves_partial_records :
  forall w self lines failure,
    chosen_path w <> "" ->
    HAS_PYSAM w = false ->
    (if Py.endswith (chosen_path w) ".gz" then gzip_open w else open_text w)
      (chosen_path w) = Stream lines failure ->
    all_variants (load_vcf w self) = fst (native_loop lines [])
    /\ (snd (native_loop lines []) <> None \/ failure <> None ->
        filtered_variants (load_vcf w self) = filtered_variants self
        /\ model_data (load_vcf w self) = model_data self
        /\ lbl_status (load_vcf w self) = "Error loading file"
        /\ forall text,
             exists self',
               run [LoadClicked w; TextChanged text] self = Some self'
               /\ filtered_variants self'
                  = visible text (chk_pass self) (fst (native_loop lines []))
               /\ model_data self' = filtered_variants self').
Proof.
  intros w self lines failure Hne Hp Ho.
  cbn [run handle].
  rewrite (load_vcf_attempt w self Hne), (attempt_native w lines failure Hp Ho).
  destruct (snd (native_loop lines [])) as [e|] eqn:Hs.
  - split; [reflexivity|]. intros _. repeat split.
    intros text. eexists. repeat split.
  - destruct failure as [e|].
    + split; [reflexivity|]. intros _. repeat split.
      intros text. eexists. repeat split.
    + split; [reflexivity|]. intros [H|H]; contradiction.
Qed.

Lemma X11_failed_parse_leaves_partial_records_witness :
  filtered_variants
    (load_vcf (text_file_world "a.vcf" [valid_line; bad_pos_line]) empty_window) = []
  /\ exists self',
       run [LoadClicked (text_file_world "a.vcf" [valid_line; bad_pos_line]);
            TextChanged "chr"] empty_window = Some self'
       /\ filtered_variants self' = [entry valid_line 2500].
Proof.
  destruct (X11_failed_parse_leaves_partial_records
              (text_file_world "a.vcf" [valid_line; bad_pos_line]) empty_window
              [valid_line; bad_pos_line] None) as [_ H].
  - discriminate.
  - reflexivity.
  - reflexivity.
  - destruct H as [H1 [_ [_ H2]]].
    + left. vm_compute. discriminate.
    + split; [exact H1|].
      destruct (H2 "chr") as [self' [Hr [Hf _]]].
      exists self'. split; [exact Hr|]. rewrite Hf. vm_compute. reflexivity.
Defined.

(** X12. A gzip-compressed file is read like a plain one: when the path
    ending in [.gz] gives through [gzip.open] the stream that another path
    gives through [open], the two loads store, show and count the same
    records. *)
Theorem X12_gzip_transparent :
  forall w w' self,
    HAS_PYSAM w = false -> HAS_PYSAM w' = false ->
    chosen_path w <> "" ->
    Py.endswith (chosen_path w) ".gz" = false ->
    Py.endswith (chosen_path w') ".gz" = true ->
    gzip_open w' (chosen_path w') = open_text w (chosen_path w) ->
    all_variants (load_vcf w' self) = all_variants (load_vcf w self)
    /\ filtered_variants (load_vcf w' self) = filtered_variants (load_vcf w self)
    /\ model_data (load_vcf w' self) = model_data (load_vcf w self)
    /\ lbl_count (load_vcf w' self) = lbl_count (load_vcf w self)
    /\ detail_view (load_vcf w' self) = detail_view (load_vcf w self).
Proof.
  intros w w' self Hp Hp' Hne Hgz Hgz' Hsame.
  assert (chosen_path w' <> "") as Hne'.
  { intros H. rewrite H in Hgz'. discriminate Hgz'. }
  assert (attempt w' = attempt w) as Ha.
  { unfold attempt. now rewrite Hp, Hp', Hgz, Hgz', Hsame. }
  rewrite (load_vcf_attempt w self Hne), (load_vcf_attempt w' self Hne'), Ha.
  destruct (attempt w) as [all [e|]]; repeat split.
Qed.

Lemma X12_gzip_transparent_witness :
  all_variants
    (load_vcf {| chosen_path := "a.vcf.gz";
                 HAS_PYSAM := false;
                 open_text := fun _ => Unopenable (EnvironmentError "binary");
                 gzip_open := fun _ => Stream [valid_line] None;
                 VariantFile := fun _ => Unopenable (EnvironmentError "none") |}
              empty_window)
  = all_variants (load_vcf (text_file_world "a.vcf" [valid_line]) empty_window).
Proof.
  apply (X12_gzip_transparent (text_file_world "a.vcf" [valid_line])); try reflexivity.
  discriminate.
Defined.

(** ** The window over a session *)

Section SessionFacts.

Lemma apply_filters_consistent (self : MainWindow) : consistent (apply_filters self).
Proof. split; reflexivity. Qed.

Lemma load_vcf_consistent (w : world) (self : MainWindow) :
  consistent self -> consistent (load_vcf w self).
Proof.
  intros H. destruct (string_dec (chosen_path w) "") as [He|Hne].
  - now rewrite (load_vcf_cancelled w _ He).
  - rewrite (load_vcf_attempt w self Hne).
    destruct (attempt w) as [all [e|]]; [exact H | split; reflexivity].
Qed.

Lemma handle_consistent (ev : event) (self self' : MainWindow) :
  consistent self -> handle ev self = Some self' -> consistent self'.
Proof.
  intros H Hev. destruct ev as [w|text|checked|indexes]; cbn [handle] in Hev.
  - inversion Hev; subst. now apply load_vcf_consistent.
  - inversion Hev; subst. apply apply_filters_consistent.
  - inversion Hev; subst. apply apply_filters_consistent.
  - unfold on_selection_changed in Hev. destruct indexes as [|row rest].
    + now inversion Hev; subst.
    + destruct (get_variant self row); [|discriminate].
      inversion Hev; subst. exact H.
Qed.

Lemma run_consistent (events : list event) (self self' : MainWindow) :
  consistent self -> run events self = Some self' -> consistent self'.
Proof.
  revert self. induction events as [|ev rest IH]; intros self H Hrun.
  - now inversion Hrun; subst.
  - cbn [run] in Hrun. destruct (handle ev self) as [s|] eqn:E; [|discriminate].
    apply (IH s); [now apply (handle_consistent ev self) | exact Hrun].
Qed.

Lemma getitem_in_range {A : Type} (l : list A) (i : Z) :
  0 <= i < Z.of_nat (List.length l) ->
  exists x, nth_error l (Z.to_nat i) = Some x /\ getitem l i = Some x.
Proof.
  intros H. unfold getitem.
  destruct (Z.leb_spec 0 i), (Z.ltb_spec i (Z.of_nat (List.length l))); try lia.
  cbn [andb].
  destruct (nth_error l (Z.to_nat i)) as [x|] eqn:E; [now exists x|].
  apply nth_error_None in E. lia.
Qed.

Lemma getitem_from_end {A : Type} (l : list A) (i : Z) :
  - Z.of_nat (List.length l) <= i < 0 ->
  exists x, nth_error l (Z.to_nat (Z.of_nat (List.length l) + i)) = Some x
            /\ getitem l i = Some x.
Proof.
  intros H. unfold getitem.
  destruct (Z.leb_spec 0 i); [lia|]. cbn [andb].
  destruct (Z.leb_spec (- Z.of_nat (List.length l)) i), (Z.ltb_spec i 0); try lia.
  cbn [andb].
  destruct (nth_error l (Z.to_nat (Z.of_nat (List.length l) + i))) as [x|] eqn:E;
    [now exists x|].
  apply nth_error_None in E. lia.
Qed.

Lemma getitem_out_of_range {A : Type} (l : list A) (i : Z) :
  Z.of_nat (List.length l) <= i \/ i < - Z.of_nat (List.length l) ->
  getitem l i = None.
Proof.
  intros H. unfold getitem.
  destruct (Z.leb_spec 0 i), (Z.ltb_spec i (Z.of_nat (List.length l))),
    (Z.leb_spec (- Z.of_nat (List.length l)) i), (Z.ltb_spec i 0);
    cbn [andb]; try reflexivity; lia.
Qed.

Lemma replace_char_join (old new : ascii) (s : string) :
  replace_char old new s = Py.join (String new "") (Py.split old s).
Proof.
  induction s as [|c r IH]; [reflexivity|].
  cbn [replace_char Py.split]. rewrite IH. destruct (Ascii.eqb c old).
  - rewrite (join_cons new) by apply split_not_nil. reflexivity.
  - destruct (Py.split old r) as [|h t] eqn:Hs; [now apply split_not_nil in Hs|].
    destruct t as [|h' t]; [reflexivity|].
    rewrite !(join_cons new) by discriminate. reflexivity.
Qed.

Lemma replace_char_clean (old new : ascii) (s : string) :
  old <> new -> occurrences old (replace_char old new s) = O.
Proof.
  intros Hne. induction s as [|c r IH]; [reflexivity|].
  cbn [replace_char occurrences]. destruct (Ascii.eqb c old) eqn:E.
  - apply Ascii.eqb_neq in Hne. rewrite Ascii.eqb_sym, Hne. exact IH.
  - rewrite E. exact IH.
Qed.

Lemma replace_char_length (old new : ascii) (s : string) :
  String.length (replace_char old new s) = String.length s.
Proof. induction s as [|c r IH]; simpl; [reflexivity | now rewrite IH]. Qed.

End SessionFacts.

(** X13. In every state the window reaches from its initial state through
    load clicks, changes of the search text, changes of the check box and
    selections, the table holds the filtered list and the counter shows its
    length. *)
Theorem X13_table_and_counter_follow_filter :
  forall events self',
    run events empty_window = Some self' ->
    model_data self' = filtered_variants self'
    /\ lbl_count self'
       = "Variants: " ++ Py.str_int (Z.of_nat (List.length (filtered_variants self')))
    /\ rowCount self' = Z.of_nat (List.length (filtered_variants self')).
Proof.
  intros events self' Hrun.
  assert (consistent empty_window) as H0 by (split; reflexivity).
  destruct (run_consistent events empty_window self' H0 Hrun) as [H1 H2].
  split; [exact H1|]. split; [exact H2|]. unfold rowCount. now rewrite H1.
Qed.

Lemma X13_table_and_counter_follow_filter_witness :
  lbl_count
    (apply_filters
       (set_search_input
          (load_vcf (text_file_world "a.vcf" [valid_line; sentinel_line]) empty_window)
          "chr2"))
  = "Variants: 1".
Proof.
  destruct (X13_table_and_counter_follow_filter
              [LoadClicked (text_file_world "a.vcf" [valid_line; sentinel_line]);
               TextChanged "chr2"]
              (apply_filters
                 (set_search_input
                    (load_vcf (text_file_world "a.vcf" [valid_line; sentinel_line])
                              empty_window)
                    "chr2")))
    as [_ [H _]].
  - reflexivity.
  - rewrite H. vm_compute. reflexivity.
Defined.

(** X14. The table has as many columns as headers: [data] gives a text
    for a column exactly when the column is below [columnCount]; every such
    column has a header and no column from [columnCount] on has one. The
    columns aligned to the right are those headed POS and QUAL. *)
Theorem X14_table_shape :
  forall v _data row col,
    (0 <= col < columnCount <-> data v col <> None)
    /\ (0 <= col < columnCount -> exists h, headerData col = Some h)
    /\ (columnCount <= col -> headerData col = None)
    /\ (0 <= col < columnCount ->
        (data_role _data row col TextAlignmentRole = Some AlignRight
         <-> headerData col = Some "POS" \/ headerData col = Some "QUAL")).
Proof.
  intros v _data row col. change columnCount with 8. unfold headerData.
  split; [|split; [|split]].
  - unfold data.
    destruct (Z.eqb_spec col 0), (Z.eqb_spec col 1), (Z.eqb_spec col 2),
      (Z.eqb_spec col 3), (Z.eqb_spec col 4), (Z.eqb_spec col 5),
      (Z.eqb_spec col 6), (Z.eqb_spec col 7);
      (split; [intros _; discriminate | intros _; lia])
      || (split; [intros ?; lia | intros H; now contradiction H]).
  - intros H. destruct (getitem_in_range HEADERS col H) as [h [_ Hg]]. now exists h.
  - intros H. apply getitem_out_of_range. left. exact H.
  - intros Hr.
    assert (col = 0 \/ col = 1 \/ col = 2 \/ col = 3 \/ col = 4 \/ col = 5
            \/ col = 6 \/ col = 7) as Hd by lia.
    repeat (destruct Hd as [-> | Hd];
            [cbn; split; [intros H; try discriminate H; auto
                         | intros [H|H]; try discriminate H; reflexivity]|]).
    subst. cbn. split; [intros H; discriminate H | intros [H|H]; discriminate H].
Qed.

Lemma X14_table_shape_witness :
  data_role [] 0 5 TextAlignmentRole = Some AlignRight.
Proof.
  apply (proj2 (proj2 (proj2 (X14_table_shape sample_variant [] 0 5)))).
  - vm_compute. split; [discriminate | reflexivity].
  - right. reflexivity.
Defined.

(** X15. A selection of a row of the table shows the details of the entry
    in that row and changes nothing else; a negative row no smaller than
    minus the row count shows the entry that many rows from the end; any
    other row raises an [IndexError]; an empty selection changes nothing. *)
Theorem X15_selection_bounds :
  forall self row rest,
    on_selection_changed [] self = Some self
    /\ (0 <= row < rowCount self ->
        exists v, nth_error (model_data self) (Z.to_nat row) = Some v
                  /\ on_selection_changed (row :: rest) self
                     = Some (set_detail self (Text (detail_text v))))
    /\ (- rowCount self <= row < 0 ->
        exists v, nth_error (model_data self) (Z.to_nat (rowCount self + row)) = Some v
                  /\ on_selection_changed (row :: rest) self
                     = Some (set_detail self (Text (detail_text v))))
    /\ (rowCount self <= row \/ row < - rowCount self ->
        on_selection_changed (row :: rest) self = None).
Proof.
  intros self row rest. unfold on_selection_changed, get_variant, rowCount.
  split; [reflexivity|]. split; [|split].
  - intros H. destruct (getitem_in_range (model_data self) row H) as [v [Hn Hg]].
    exists v. now rewrite Hg.
  - intros H. destruct (getitem_from_end (model_data self) row H) as [v [Hn Hg]].
    exists v. now rewrite Hg.
  - intros H. now rewrite (getitem_out_of_range (model_data self) row H).
Qed.

Lemma X15_selection_bounds_witness :
  on_selection_changed [0] loaded_window
  = Some (set_detail loaded_window (Text (detail_text sample_variant)))
  /\ on_selection_changed [-1] loaded_window
     = Some (set_detail loaded_window (Text (detail_text sample_variant)))
  /\ on_selection_changed [1] loaded_window = None.
Proof.
  destruct (X15_selection_bounds loaded_window 0 []) as [_ [H0 _]].
  destruct (X15_selection_bounds loaded_window (-1) []) as [_ [_ [H1 _]]].
  destruct (X15_selection_bounds loaded_window 1 []) as [_ [_ [_ H2]]].
  split; [|split].
  - destruct H0 as [v [Hv ->]]; [vm_compute; split; [discriminate | reflexivity]|].
    vm_compute in Hv. now inversion Hv.
  - destruct H1 as [v [Hv ->]]; [vm_compute; split; [discriminate | reflexivity]|].
    vm_compute in Hv. now inversion Hv.
  - apply H2. left. vm_compute. discriminate.
Defined.

(** X16. The detail text ends with the raw line in which every tab is
    replaced by one space: the tab-separated fields of the line joined by
    single spaces, of the length of the line and without a tab. *)
Theorem X16_detail_raw_line :
  forall v,
    detail_text v = detail_head v ++ Py.join " " (fields (V.raw_info v))
    /\ occurrences TAB (replace_char TAB " " (V.raw_info v)) = O
    /\ String.length (Py.join " " (fields (V.raw_info v)))
       = String.length (V.raw_info v).
Proof.
  intros v. unfold detail_text, fields.
  rewrite <- (replace_char_join TAB " "). split; [reflexivity|]. split.
  - apply replace_char_clean. discriminate.
  - apply replace_char_length.
Qed.

Lemma detail_text_quality (v : V.t) :
  Py.contains ("Quality:  " ++ str_qual (V.qual v) ++ NL) (detail_text v) = true.
Proof.
  apply contains_app.
  exists ("=== Variant Details ===" ++ NL
          ++ "Location: " ++ V.chrom v ++ ":" ++ Py.str_int (V.pos v) ++ NL
          ++ "Ref/Alt:  " ++ V.ref v ++ " -> " ++ V.alt v ++ NL),
         ("Filter:   " ++ V.filter v ++ NL
          ++ "Info:     " ++ V.info v ++ NL
          ++ repeat_char "-" 30 ++ NL
          ++ "Raw Line:" ++ NL ++ replace_char TAB " " (V.raw_info v)).
  unfold detail_text, detail_head.
  repeat rewrite string_app_assoc. reflexivity.
Qed.

(** X17. The detail text does not show an absent QUAL as the table does.
    For a line whose QUAL is ["."] or not a float, read by the native
    parser, the table shows ["."] and the detail text the line
    ["Quality:  0.0"]; for a record without QUAL read through [pysam], the
    table shows ["."] and the detail text the line ["Quality:  None"]. *)
Theorem X17_detail_shows_absent_qual :
  (forall line v,
      parse_native_line line = Append v ->
      col (columns line) 5 = "." \/ PyFloat.float (col (columns line) 5) = None ->
      data v 5 = Some "."
      /\ Py.contains ("Quality:  0.0" ++ NL) (detail_text v) = true)
  /\ (forall rec,
        Rec.qual rec = None ->
        data (variant_of_rec rec) 5 = Some "."
        /\ Py.contains ("Quality:  None" ++ NL) (detail_text (variant_of_rec rec)) = true).
Proof.
  split.
  - intros line v Hv Hq.
    apply parse_native_line_Append in Hv as [_ [p [_ ->]]].
    assert (V.qual (entry line p) = Some PyFloat.zero) as Hz.
    { unfold entry. cbn [V.qual]. destruct Hq as [-> | ->]; [reflexivity|].
      now destruct (negb (col (columns line) 5 =? ".")%string). }
    split.
    + unfold data. cbn [Z.eqb]. now rewrite Hz.
    + pose proof (detail_text_quality (entry line p)) as H. now rewrite Hz in H.
  - intros rec Hq.
    assert (V.qual (variant_of_rec rec) = None) as Hn by exact Hq.
    split.
    + unfold data. cbn [Z.eqb]. now rewrite Hn.
    + pose proof (detail_text_quality (variant_of_rec rec)) as H. now rewrite Hn in H.
Qed.

Lemma X17_detail_shows_absent_qual_witness :
  Py.contains ("Quality:  0.0" ++ NL) (detail_text (entry sentinel_line 100)) = true
  /\ Py.contains ("Quality:  None" ++ NL) (detail_text (variant_of_rec sentinel_rec)) = true.
Proof.
  split.
  - apply (proj1 X17_detail_shows_absent_qual sentinel_line).
    + vm_compute. reflexivity.
    + left. vm_compute. reflexivity.
  - apply (proj2 X17_detail_shows_absent_qual sentinel_rec). reflexivity.
Defined.




(** X19. Reading two lists of lines one after the other is reading their
    concatenation: the loop over the second list goes on from what the loop
    over the first one appended, unless the first one raised, which ends the
    whole loop there. *)
Theorem X19_loop_over_concatenation :
  forall l1 l2 all,
    native_loop (l1 ++ l2) all =
      match native_loop l1 all with
      | (all', None) => native_loop l2 all'
      | (all', Some e) => (all', Some e)
      end.
Proof.
  induction l1 as [|line rest IH]; intros l2 all; [reflexivity|].
  cbn [app native_loop]. destruct (parse_native_line line); [apply IH | apply IH | reflexivity].
Qed.

(** ** Text beyond code point 255 *)

Section UnicodeFacts.

Lemma unicode_prefix_app (p s : Unicode.text) :
  Unicode.prefix p s = true <-> exists t, s = (p ++ t)%list.
Proof.
  revert s. induction p as [|a p IH]; intros s.
  - split; [intros _; now exists s | reflexivity].
  - destruct s as [|b s]; cbn [Unicode.prefix].
    + split; [discriminate | intros [t Ht]; discriminate].
    + rewrite andb_true_iff, Z.eqb_eq, IH. split.
      * intros [-> [t ->]]. now exists t.
      * intros [t Ht]. inversion Ht; subst. split; [reflexivity | now exists t].
Qed.

Lemma unicode_contains_app (needle hay : Unicode.text) :
  Unicode.contains needle hay = true
  <-> exists a b, hay = (a ++ needle ++ b)%list.
Proof.
  induction hay as [|c hay IH]; cbn [Unicode.contains].
  - rewrite orb_false_r, unicode_prefix_app. split.
    + intros [t Ht]. now exists [], t.
    + intros [a [b H]]. destruct a; [now exists b | discriminate].
  - rewrite orb_true_iff, unicode_prefix_app, IH. split.
    + intros [[t Ht] | [a [b H]]].
      * now exists [], t.
      * exists (c :: a), b. simpl. now rewrite H.
    + intros [a [b H]]. destruct a as [|d a].
      * left. now exists b.
      * right. exists a, b. simpl in H. now inversion H.
Qed.

Lemma unicode_contains_trans (a b c : Unicode.text) :
  Unicode.contains a b = true -> Unicode.contains b c = true ->
  Unicode.contains a c = true.
Proof.
  rewrite !unicode_contains_app. intros [x [y Hb]] [u [v Hc]].
  exists (u ++ x)%list, (y ++ v)%list. subst. now rewrite <- !app_assoc.
Qed.

(** Without a capital sigma, [lower()] works character by character. *)
Lemma lower_from_plain (s : Unicode.text) (after_cased : bool) :
  ~ In Unicode.CAPITAL_SIGMA s ->
  Unicode.lower_from after_cased s = flat_map Unicode.lower_char s.
Proof.
  revert after_cased. induction s as [|c r IH]; intros after_cased H; [reflexivity|].
  cbn [Unicode.lower_from flat_map].
  destruct (Z.eqb_spec c Unicode.CAPITAL_SIGMA) as [->|Hne].
  - exfalso. apply H. now left.
  - f_equal. apply IH. intros Hin. apply H. now right.
Qed.

Lemma unicode_contains_lower (a b : Unicode.text) :
  ~ In Unicode.CAPITAL_SIGMA b ->
  Unicode.contains a b = true ->
  Unicode.contains (Unicode.lower a) (Unicode.lower b) = true.
Proof.
  intros Hb. rewrite !unicode_contains_app. intros [x [y H]]. subst b.
  assert (~ In Unicode.CAPITAL_SIGMA a) as Ha.
  { intros Hin. apply Hb. apply in_or_app. right. apply in_or_app. now left. }
  unfold Unicode.lower. rewrite (lower_from_plain _ _ Hb), (lower_from_plain _ _ Ha).
  exists (flat_map Unicode.lower_char x), (flat_map Unicode.lower_char y).
  now rewrite !flat_map_app.
Qed.

Lemma unicode_filter_loop_filter (search_text : Unicode.text) (show_pass : bool)
    (vs filtered : list Unicode.V.t) :
  Unicode.filter_loop search_text show_pass vs filtered
  = (filtered ++ List.filter (Unicode.kept search_text show_pass) vs)%list.
Proof.
  revert filtered; induction vs as [|v vs IH]; intros filtered.
  - cbn [Unicode.filter_loop List.filter]. now rewrite app_nil_r.
  - cbn [Unicode.filter_loop List.filter].
    unfold Unicode.kept at 1, Unicode.searched.
    destruct show_pass,
      (Unicode.eqb (Unicode.V.filter v) (Unicode.of_string "PASS")),
      (Unicode.truthy search_text),
      (Unicode.contains search_text (Unicode.lower (Unicode.V.chrom v))),
      (Unicode.contains search_text
         (Unicode.of_string (Py.str_int (Unicode.V.pos v)))),
      (Unicode.contains search_text
         (Unicode.lower (Unicode.str_id (Unicode.V.id v)))),
      (Unicode.contains search_text (Unicode.lower (Unicode.V.info v)));
      cbn [andb orb negb]; rewrite IH; try rewrite <- app_assoc; reflexivity.
Qed.

(** On code points below 256 the lower-case form is that of [Py.lower]. *)
Lemma lower_char_of_ascii (c : ascii) :
  (Py.code c =? Unicode.CAPITAL_SIGMA) = false
  /\ Unicode.lower_char (Py.code c) = [Py.code (Py.lower_char c)].
Proof.
  destruct c as [[] [] [] [] [] [] [] []]; vm_compute; split; reflexivity.
Qed.

Lemma lower_of_string (s : string) :
  Unicode.lower (Unicode.of_string s) = Unicode.of_string (Py.lower s).
Proof.
  unfold Unicode.lower. generalize false.
  induction s as [|c r IH]; intros after_cased; [reflexivity|].
  cbn [Unicode.of_string Py.lower Unicode.lower_from].
  destruct (lower_char_of_ascii c) as [-> ->]. cbn [app]. f_equal. apply IH.
Qed.

End UnicodeFacts.

(** X20. On any text, replacing a query by a string that contains it and
    holds no capital sigma never makes the visible list longer. *)
Theorem X20_superstring_without_sigma :
  forall query query' passOnly records,
    Unicode.contains query query' = true ->
    ~ In Unicode.CAPITAL_SIGMA query' ->
    (List.length (Unicode.visible query' passOnly records)
     <= List.length (Unicode.visible query passOnly records))%nat.
Proof.
  intros query query' passOnly records Hsub Hplain.
  pose proof (unicode_contains_lower query query' Hplain Hsub) as Hlow.
  unfold Unicode.visible. rewrite !unicode_filter_loop_filter. cbn [app].
  apply filter_length_le. intros v. unfold Unicode.kept.
  destruct (negb (passOnly && negb (Unicode.eqb (Unicode.V.filter v)
                                                (Unicode.of_string "PASS"))));
    simpl; [|discriminate].
  destruct (Unicode.truthy (Unicode.lower query)) eqn:Hq; simpl; [|reflexivity].
  assert (Unicode.truthy (Unicode.lower query') = true) as ->.
  { destruct (Unicode.lower query'); [|reflexivity].
    destruct (Unicode.lower query); [discriminate Hq | discriminate Hlow]. }
  simpl. rewrite !negb_true_iff, !negb_false_iff. unfold Unicode.searched.
  rewrite !orb_true_iff.
  intros [[[H|H]|H]|H]; [left; left; left | left; left; right | left; right | right];
    exact (unicode_contains_trans _ _ _ Hlow H).
Qed.

Lemma X20_superstring_without_sigma_witness :
  (List.length (Unicode.visible [945; 963; 945]%Z false [sigma_variant])
   <= List.length (Unicode.visible [945; 963]%Z false [sigma_variant]))%nat.
Proof.
  apply (X20_superstring_without_sigma [945; 963] [945; 963; 945] false [sigma_variant]).
  - reflexivity.
  - vm_compute. intros [H|[H|[H|[]]]]; discriminate H.
Defined.
